(** * The where-clause compiler and value escaper of the abstract query generator

    A shallow embedding of
    [packages/core/src/dialects/abstract/query-generator-typescript.ts]
    (classes [AbstractQueryGeneratorTypeScript] and [WhereSqlBuilder], and the
    helpers [joinWithLogicalOperator], [wrapWithNot], [wrapAmbiguousWhere]),
    followed by the properties of the compiler that the specification states.

    JavaScript values are an inductive type, thrown errors are values of
    [error], and a call that may throw returns a [result].  The collaborators
    that live in other modules (data types, identifier quoting, attribute
    syntax, model metadata) are the fields of a [Dialect] record. *)

From Stdlib Require Import String Ascii List ZArith Bool Lia.
From Stdlib Require Import DecimalString.
Import ListNotations.
Local Open Scope list_scope.
Local Open Scope string_scope.

Set Implicit Arguments.
Local Set Warnings "-register-all".

(* ------------------------------------------------------------------ *)
(** ** Operator tags ([Op], operators.js) *)

(** The members of [Op] that the source file names. *)
Inductive Op : Set :=
| OpEq | OpNe | OpGte | OpGt | OpLte | OpLt
| OpIs | OpIsNot | OpIn | OpNotIn
| OpLike | OpNotLike | OpILike | OpNotILike
| OpRegexp | OpNotRegexp | OpIRegexp | OpNotIRegexp
| OpBetween | OpNotBetween
| OpOverlap | OpContains | OpContained | OpAdjacent
| OpStrictLeft | OpStrictRight | OpNoExtendRight | OpNoExtendLeft
| OpAny | OpAll | OpMatch | OpAnyKeyExists | OpAllKeysExist
| OpAnd | OpOr | OpNot | OpCol | OpValues
| OpStartsWith | OpNotStartsWith | OpEndsWith | OpNotEndsWith
| OpSubstring | OpNotSubstring.

Definition Op_eq_dec (a b : Op) : {a = b} + {a <> b}.
Proof. decide equality. Defined.

Definition Op_eqb (a b : Op) : bool := if Op_eq_dec a b then true else false.

(* ------------------------------------------------------------------ *)
(** ** Semantic types ([DataType], data-types.js) *)

(** A data type is either a string (a raw SQL type name, the case
    [typeof type === 'string']) or an instance of [AbstractDataType].  The
    classes the source tests with [instanceof] are constructors of their own. *)
Inductive DataType : Set :=
| SqlTypeName (name : string)
| JSON
| TEXT
| ARRAY (type : DataType)
| RANGE (subtype : DataType)
| AbstractDataType (name : string).

Definition isStringType (t : DataType) : bool :=
  match t with SqlTypeName _ => true | _ => false end.

Definition instanceofJSON (t : option DataType) : bool :=
  match t with Some JSON => true | _ => false end.

Definition instanceofARRAY (t : option DataType) : bool :=
  match t with Some (ARRAY _) => true | _ => false end.

Definition instanceofRANGE (t : option DataType) : bool :=
  match t with Some (RANGE _) => true | _ => false end.

Definition instanceofAbstractDataType (t : option DataType) : bool :=
  match t with Some (SqlTypeName _) | None => false | Some _ => true end.

(** [a ?? b] on possibly undefined data types. *)
Definition nullish (a b : option DataType) : option DataType :=
  match a with Some _ => a | None => b end.

(* ------------------------------------------------------------------ *)
(** ** JavaScript values and SequelizeMethod instances *)

(** A plain object keeps its string-keyed properties (in [Object.keys] order)
    apart from its operator-symbol-keyed ones (in the order of
    [Object.getOwnPropertySymbols]); keys are distinct within each list.
    Numbers are integers.  [VOther] stands for any other object that is neither
    plain nor a SequelizeMethod (a Date, a Buffer, a class instance). *)
Inductive value : Type :=
| VUndefined
| VNull
| VBool (b : bool)
| VNum (n : Z)
| VStr (s : string)
| VArr (items : list value)
| VObj (strs : list (string * value)) (syms : list (Op * value))
| VMethod (m : method)
| VPojoWhere (p : PojoWhere)
| VOther (description : string)

(** The subclasses of [SequelizeMethod] (utils/sequelize-method.js). *)
with method : Type :=
| Literal (val : list part)
| Fn (fn : string) (args : list value)
| List (values : list value)
| Value (v : value)
| Identifier (v : string)
| Cast (val : value) (type : DataType)
| Col (identifiers : list value)
| Attribute (attributeName : string)
| Where (where_ : value)
| JsonPath (v : value) (path : list string)
| AssociationPath (associationPath : list string) (attribute : string)
| OtherMethod (constructorName : string)

(** An element of [Literal.val]: [string | SequelizeMethod]. *)
with part : Type :=
| PStr (s : string)
| PMethod (m : method)

(** [class PojoWhere { leftOperand; whereValue }]. *)
with PojoWhere : Type :=
| PojoWhere_create (leftOperand : value) (whereAttributeHashValue : value).

Definition leftOperand (p : PojoWhere) : value :=
  match p with PojoWhere_create l _ => l end.

Definition whereValue (p : PojoWhere) : value :=
  match p with PojoWhere_create _ w => w end.

(** [isPlainObject(value)] (utils/check.js). *)
Definition isPlainObject (v : value) : bool :=
  match v with VObj _ _ => true | _ => false end.

(** [Array.isArray(value)]. *)
Definition isArray (v : value) : bool :=
  match v with VArr _ => true | _ => false end.

(** [value instanceof SequelizeMethod]. *)
Definition isSequelizeMethod (v : value) : bool :=
  match v with VMethod _ => true | _ => false end.

(** [value instanceof Literal]. *)
Definition isLiteral (v : value) : bool :=
  match v with VMethod (Literal _) => true | _ => false end.

(** [isNullish(value)]. *)
Definition isNullish (v : value) : bool :=
  match v with VUndefined | VNull => true | _ => false end.

(** [object[op]] for an operator symbol; [None] when [!(op in object)]. *)
Fixpoint getSym (op : Op) (syms : list (Op * value)) : option value :=
  match syms with
  | [] => None
  | (k, v) :: rest => if Op_eqb op k then Some v else getSym op rest
  end.

(* ------------------------------------------------------------------ *)
(** ** Errors and results *)

(** One constructor for each [throw] of the source file, carrying the
    structure the message is built from; [CollaboratorError] is an error raised
    by code outside the file. *)
Inductive error : Type :=
| RawWhereStringRemoved
| InvalidWhereOption (where_ : value) (cause : error)
| InvalidQueryExpectedObject (input : value)
| InvalidQuerySymbolOperator (input : value) (operator : Op)
| InRequiresArrayOrLiteral
| IsRequiresNullBooleanOrLiteral
| BetweenRequiresPairOrLiteral
| OperatorNotSupported (operator : Op)
| UndefinedCannotBeEscaped
| JsonOperationsNotSupported
| JsonPathExtractionNotImplemented
| PositionalReplacementInLiteral (sql : string)
| NotAFunction (property : string) (receiver : value)
| CollaboratorError (message : string).

(** The outcome of a call: a returned value, a thrown error, or [OutOfFuel]
    when the recursion budget of [formatSequelizeMethod] is exhausted before
    the call completes. *)
Inductive result (A : Type) : Type :=
| Ok (a : A)
| Throw (e : error)
| OutOfFuel.

Arguments Throw {A} e.
Arguments OutOfFuel {A}.

Definition bind {A B : Type} (r : result A) (k : A -> result B) : result B :=
  match r with
  | Ok a => k a
  | Throw e => Throw e
  | OutOfFuel => OutOfFuel
  end.

Declare Scope result_scope.
Delimit Scope result_scope with result.
Notation "x <- c ;; k" := (bind c (fun x => k))
  (at level 61, c at next level, right associativity) : result_scope.
Local Open Scope result_scope.

(** [array.map(f)] when [f] may throw: the first failure aborts the map. *)
Definition mapM {A B : Type} (f : A -> result B) : list A -> result (list B) :=
  fix go (l : list A) : result (list B) :=
    match l with
    | [] => Ok []
    | x :: rest =>
        y <- f x ;;
        ys <- go rest ;;
        Ok (y :: ys)
    end.

(* ------------------------------------------------------------------ *)
(** ** String primitives *)

(** [c.toUpperCase()] on a character of the ASCII range. *)
Definition upperAscii (c : ascii) : ascii :=
  let n := nat_of_ascii c in
  if (97 <=? n)%nat && (n <=? 122)%nat then ascii_of_nat (n - 32) else c.

Fixpoint toUpperCase (s : string) : string :=
  match s with
  | EmptyString => EmptyString
  | String c rest => String (upperAscii c) (toUpperCase rest)
  end.

(** [s.startsWith(p)]. *)
Definition startsWith (s p : string) : bool := String.prefix p s.

(** [s.endsWith(p)]: some tail of [s] is [p]. *)
Fixpoint endsWith (s p : string) : bool :=
  if String.eqb s p then true
  else match s with
       | EmptyString => false
       | String _ rest => endsWith rest p
       end.

(** [s.includes(p)]: [p] is a prefix of some tail of [s]. *)
Fixpoint includes (s p : string) : bool :=
  if String.prefix p s then true
  else match s with
       | EmptyString => false
       | String _ rest => includes rest p
       end.

(** A match of the pattern text [p] at the head of [s] under the [i] flag. *)
Fixpoint matchesAtHeadIgnoreCase (p s : string) : bool :=
  match p, s with
  | EmptyString, _ => true
  | String a p', String b s' =>
      Ascii.eqb (upperAscii a) (upperAscii b) && matchesAtHeadIgnoreCase p' s'
  | String _ _, EmptyString => false
  end.

(** [/ AND | OR /i.test(sql)]. *)
Fixpoint testAndOr (sql : string) : bool :=
  if matchesAtHeadIgnoreCase " AND " sql || matchesAtHeadIgnoreCase " OR " sql
  then true
  else match sql with
       | EmptyString => false
       | String _ rest => testAndOr rest
       end.

(** [Boolean(s)] for a string. *)
Definition truthy (s : string) : bool :=
  match s with EmptyString => false | _ => true end.

(** [String(n)] for an integer. *)
Definition numberToString (n : Z) : string :=
  NilZero.string_of_int (Z.to_int n).

(* ------------------------------------------------------------------ *)
(** ** Collaborators *)

(** Model metadata ([model.modelDefinition]): the column name of an attribute
    ([getColumnNameLoose]), the declared type of an attribute
    ([attributes.get(name)?.type]) and the target model of an association path
    ([getAssociation(path)?.target]). *)
Inductive ModelStatic : Type :=
| ModelDefinition
    (getColumnNameLoose : string -> string)
    (attributeType : string -> option DataType)
    (getAssociation : list string -> option ModelStatic).

Definition getColumnNameLoose (m : ModelStatic) : string -> string :=
  match m with ModelDefinition f _ _ => f end.

Definition attributeType (m : ModelStatic) : string -> option DataType :=
  match m with ModelDefinition _ f _ => f end.

Definition getAssociation (m : ModelStatic) : list string -> option ModelStatic :=
  match m with ModelDefinition _ _ f => f end.

(** Named replacements ([BindOrReplacements]). *)
Definition BindOrReplacements : Type := list (string * value).

(** The option bag that travels through one compilation
    ([FormatWhereOptions], [FormatSequelizeMethodOptions], [EscapeOptions]:
    at run time one object).  [bindParam] is the caller's callback that
    registers a value and returns its placeholder. *)
Record Options : Type := {
  model : option ModelStatic;
  bindParam : option (value -> string);
  replacements : option BindOrReplacements;
  type : option DataType
}.

Definition EMPTY_OBJECT : Options :=
  {| model := None; bindParam := None; replacements := None; type := None |}.

(** [{ ...options, type }]. *)
Definition withType (options : Options) (t : option DataType) : Options :=
  {| model := model options;
     bindParam := bindParam options;
     replacements := replacements options;
     type := t |}.

(** [{ type }]. *)
Definition onlyType (t : option DataType) : Options :=
  {| model := None; bindParam := None; replacements := None; type := t |}.

(** What the file imports or inherits and does not define: the dialect object,
    the [sequelize] instance, the data-type classes, the helpers of [utils/]
    and the methods that a dialect's query generator declares or overrides. *)
Record Dialect : Type := {
  TICK_CHAR_LEFT : string;
  TICK_CHAR_RIGHT : string;
  supports_jsonOperations : bool;
  escapeString : string -> string;
  utils_quoteIdentifier : string -> string -> string -> string;
  parseAttributeSyntax : string -> result method;
  injectReplacements : string -> BindOrReplacements -> error -> result string;
  bestGuessDataTypeOfVal : value -> result DataType;
  validateDataType : value -> DataType -> option error;
  attributeTypeToSql : DataType -> string;
  normalizeDataType : DataType -> DataType;
  noTypeValidation : bool;
  dataType_escape : DataType -> value -> result string;
  dataType_getBindParamSql : DataType -> value -> (value -> string) -> result string;
  quote : value -> option ModelStatic -> Options -> result string;
  jsonPathExtractionQuery2_override :
    option (string -> list string -> result string)
}.

(* ------------------------------------------------------------------ *)
(** ** Free functions of the module *)

Definition joinWithLogicalOperator (sqlArray : list string) (operator : Op) : string :=
  let operatorSql := if Op_eqb operator OpAnd then " AND " else " OR " in
  let sqlArray := filter truthy sqlArray in
  match sqlArray with
  | [] => ""
  | [sql] => sql
  | _ =>
      String.concat operatorSql
        (map (fun sql => if testAndOr sql then "(" ++ sql ++ ")" else sql) sqlArray)
  end.

Definition wrapWithNot (sql : string) : string :=
  if negb (truthy sql) then ""
  else if startsWith sql "(" && endsWith sql ")" then "NOT " ++ sql
  else "NOT (" ++ sql ++ ")".

Definition wrapAmbiguousWhere (operand : value) (sql : string) : string :=
  match operand with
  | VMethod (Where _) => if includes sql " " then "(" ++ sql ++ ")" else sql
  | _ => sql
  end.

(** [WhereSqlBuilder.operatorMap]. *)
Definition operatorMap (operator : Op) : option string :=
  match operator with
  | OpEq => Some "="
  | OpNe => Some "!="
  | OpGte => Some ">="
  | OpGt => Some ">"
  | OpLte => Some "<="
  | OpLt => Some "<"
  | OpIs => Some "IS"
  | OpIsNot => Some "IS NOT"
  | OpIn => Some "IN"
  | OpNotIn => Some "NOT IN"
  | OpLike => Some "LIKE"
  | OpNotLike => Some "NOT LIKE"
  | OpILike => Some "ILIKE"
  | OpNotILike => Some "NOT ILIKE"
  | OpRegexp => Some "~"
  | OpNotRegexp => Some "!~"
  | OpIRegexp => Some "~*"
  | OpNotIRegexp => Some "!~*"
  | OpBetween => Some "BETWEEN"
  | OpNotBetween => Some "NOT BETWEEN"
  | OpOverlap => Some "&&"
  | OpContains => Some "@>"
  | OpContained => Some "<@"
  | OpAdjacent => Some "-|-"
  | OpStrictLeft => Some "<<"
  | OpStrictRight => Some ">>"
  | OpNoExtendRight => Some "&<"
  | OpNoExtendLeft => Some "&>"
  | OpAny => Some "ANY"
  | OpAll => Some "ALL"
  | OpMatch => Some "@@"
  | OpAnyKeyExists => Some "?|"
  | OpAllKeysExist => Some "?&"
  | _ => None
  end.

(** The text interpolated by [`${this.operatorMap[operator]}`]. *)
Definition operatorText (operator : Op) : string :=
  match operatorMap operator with Some sql => sql | None => "undefined" end.

(** [#wrapJsonPath]. *)
Definition wrapJsonPath (operand : value) (jsonPath : list string) : value :=
  match jsonPath with
  | [] => operand
  | _ :: _ =>
      match operand with
      | VMethod (JsonPath v path) => VMethod (JsonPath v (path ++ jsonPath)%list)
      | _ => VMethod (JsonPath operand jsonPath)
      end
  end.

(** [array.map(f)] for a callback that reads and writes a captured variable:
    the variable's value is passed from one element to the next. *)
Definition mapMS {A B S : Type} (f : A -> S -> result (B * S))
  : list A -> S -> result (list B * S) :=
  fix go (l : list A) (s : S) : result (list B * S) :=
    match l with
    | [] => Ok ([], s)
    | x :: rest =>
        r <- f x s ;;
        rs <- go rest (snd r) ;;
        Ok (fst r :: fst rs, snd rs)
    end.

(** The callback [handlePart] of [#handleRecursiveNotOrAndNestedPathRecursive]:
    [(left, operator, right) => string].  The closure that [formatPojoWhere]
    passes assigns to its captured variable [leftDataType], which is threaded
    through as the last argument and returned beside the SQL. *)
Definition LeafHandler : Type :=
  value -> option Op -> value -> option DataType -> result (string * option DataType).

(** The callback [handlePart] of [#handleRecursiveNotOrAndWithImplicitAndArray]:
    [(part: SequelizeMethod | PojoWhere) => string]. *)
Inductive WherePart : Type :=
| PartMethod (m : method)
| PartPojoWhere (p : PojoWhere).

(** [#handleRecursiveNotOrAndWithImplicitAndArray].  [getComplexKeys]
    (utils/where.js) lists the operator keys of the object, then its attribute
    names; an entry of either list is the key with [input[key]].  The
    [PojoWhere] handed to [handlePart] is taken from a pool and overwritten
    before use; it is a fresh record here. *)
Fixpoint handleRecursiveNotOrAndWithImplicitAndArray
    (input : value) (handlePart : WherePart -> result string)
    (logicalOperator : Op) {struct input} : result string :=
  match input with
  | VArr items =>
      parts <- mapM (fun part =>
                 match part with
                 | VUndefined => Ok ""
                 | _ => handleRecursiveNotOrAndWithImplicitAndArray part handlePart OpAnd
                 end) items ;;
      Ok (joinWithLogicalOperator parts logicalOperator)
  | VObj strs syms =>
      operatorSql <- mapM (fun kv =>
                 let '(operatorOrAttribute, v) := kv in
                 match operatorOrAttribute with
                 | OpNot =>
                     generatedResult <-
                       handleRecursiveNotOrAndWithImplicitAndArray v handlePart OpAnd ;;
                     Ok (wrapWithNot generatedResult)
                 | OpAnd | OpOr =>
                     handleRecursiveNotOrAndWithImplicitAndArray v handlePart
                       operatorOrAttribute
                 | _ => Throw (InvalidQuerySymbolOperator input operatorOrAttribute)
                 end) syms ;;
      attributeSql <- mapM (fun kv =>
                 let '(operatorOrAttribute, v) := kv in
                 handlePart
                   (PartPojoWhere
                      (PojoWhere_create (VMethod (Attribute operatorOrAttribute)) v)))
               strs ;;
      Ok (joinWithLogicalOperator (operatorSql ++ attributeSql)%list logicalOperator)
  | VMethod m => handlePart (PartMethod m)
  | _ => Throw (InvalidQueryExpectedObject input)
  end.

(** [#handleRecursiveNotOrAndNestedPathRecursive].  The keys are
    [[...Object.keys(whereValue), ...getOperators(whereValue)]]. *)
Fixpoint handleRecursiveNotOrAndNestedPathRecursive
    (leftOperand : value) (whereValue : value) (allowJsonPath : bool)
    (handlePart : LeafHandler) (operator : Op) (parentJsonPath : list string)
    (leftDataType : option DataType) {struct whereValue}
  : result (string * option DataType) :=
  match whereValue with
  | VObj strs syms =>
      if negb allowJsonPath && (0 <? length strs)%nat then
        handlePart (wrapJsonPath leftOperand parentJsonPath) None whereValue leftDataType
      else
        pathParts <- mapMS (fun kv st =>
               let '(key, v) := kv in
               handleRecursiveNotOrAndNestedPathRecursive leftOperand v allowJsonPath
                 handlePart operator (parentJsonPath ++ [key])%list st)
             strs leftDataType ;;
        operatorParts <- mapMS (fun kv st =>
               let '(key, v) := kv in
               match key with
               | OpNot =>
                   r <- handleRecursiveNotOrAndNestedPathRecursive leftOperand v
                          allowJsonPath handlePart OpAnd parentJsonPath st ;;
                   Ok (wrapWithNot (fst r), snd r)
               | OpAnd | OpOr =>
                   match v with
                   | VArr vs =>
                       sqlParts <- mapMS (fun v' st' =>
                              handleRecursiveNotOrAndNestedPathRecursive leftOperand v'
                                allowJsonPath handlePart OpAnd parentJsonPath st')
                            vs st ;;
                       Ok (joinWithLogicalOperator (fst sqlParts) key, snd sqlParts)
                   | _ =>
                       handleRecursiveNotOrAndNestedPathRecursive leftOperand v
                         allowJsonPath handlePart key parentJsonPath st
                   end
               | _ => handlePart (wrapJsonPath leftOperand parentJsonPath) (Some key) v st
               end)
             syms (snd pathParts) ;;
        Ok (joinWithLogicalOperator (fst pathParts ++ fst operatorParts)%list operator,
            snd operatorParts)
  | _ => handlePart (wrapJsonPath leftOperand parentJsonPath) None whereValue leftDataType
  end.

(* ------------------------------------------------------------------ *)
(** ** The query generator and the where builder *)

(** Lines 713-741 of [formatPojoWhere]: the operator and the right operand of
    a leaf after the [Op.col] and [Op.any]/[Op.all] shorthands, the inference
    of a missing operator and the rewriting of comparisons with [null]. *)
Definition inferOperator (leftDataType : option DataType) (right_ : value) : Op :=
  if isArray right_ && negb (instanceofARRAY leftDataType) then OpIn
  else match right_ with
       | VNull => OpIs
       | _ => OpEq
       end.

Definition resolveOperator (leftDataType : option DataType)
    (operator : option Op) (right_ : value) : Op * value :=
  let '(operator, right_) :=
    match operator with
    | Some OpCol => (Some OpEq, VMethod (Col [right_]))
    | _ => (operator, right_)
    end in
  let '(operator, right_) :=
    match operator with
    | Some OpAny => (Some OpEq, VObj [] [(OpAny, right_)])
    | Some OpAll => (Some OpEq, VObj [] [(OpAll, right_)])
    | _ => (operator, right_)
    end in
  let operator :=
    match operator with
    | None => inferOperator leftDataType right_
    | Some op => op
    end in
  let operator :=
    match right_ with
    | VNull =>
        let operator := if Op_eqb operator OpEq then OpIs else operator in
        if Op_eqb operator OpNe then OpIsNot else operator
    | _ => operator
    end in
  (operator, right_).

Section QueryGenerator.

(** [this.dialect], [this.sequelize] and the imported helpers. *)
Variable dialect : Dialect.

(** [#jsonType] and [#arrayOfTextType]. *)
Definition jsonType : DataType := JSON.
Definition arrayOfTextType : DataType := ARRAY TEXT.

Definition quoteIdentifier (identifier : string) : string :=
  utils_quoteIdentifier dialect identifier
    (TICK_CHAR_LEFT dialect) (TICK_CHAR_RIGHT dialect).

(** The body in the abstract class always throws; a dialect's generator
    overrides the method. *)
Definition jsonPathExtractionQuery2 (v : string) (path : list string)
  : result string :=
  match jsonPathExtractionQuery2_override dialect with
  | Some override => override v path
  | None =>
      if negb (supports_jsonOperations dialect)
      then Throw JsonOperationsNotSupported
      else Throw JsonPathExtractionNotImplemented
  end.

Definition formatAssociationPath (associationPath : list string)
    (attribute : string) : string :=
  quoteIdentifier (String.concat "->" associationPath)
    ++ "." ++ quoteIdentifier attribute.

Definition validate (v : value) (t : DataType) : result unit :=
  if noTypeValidation dialect || isNullish v then Ok tt
  else if isStringType t then Ok tt
  else match validateDataType dialect v (normalizeDataType dialect t) with
       | Some e => Throw e
       | None => Ok tt
       end.

(** [#getOperandType].  In the association-path case the recursive call is
    made on [operand.attribute], a string, which is an instance of none of
    the classes tested, so that call returns [undefined]. *)
Fixpoint getOperandType (operand : value) (mdl : option ModelStatic)
  : option DataType :=
  match mdl with
  | None => None
  | Some m =>
      match operand with
      | VMethod (Cast _ t) => Some (normalizeDataType dialect t)
      | VMethod (JsonPath v _) =>
          match getOperandType v mdl with
          | Some t => Some t
          | None => Some jsonType
          end
      | VMethod (AssociationPath associationPath _) =>
          match getAssociation m associationPath with
          | None => None
          | Some _ => None
          end
      | VMethod (Attribute attributeName) => attributeType m attributeName
      | _ => None
      end
  end.

Section Recursion.

(** The method [this.formatSequelizeMethod] as seen from the methods it
    calls; [formatSequelizeMethod] below closes the recursion. *)
Variable this_formatSequelizeMethod : method -> Options -> result string.

(** [escape].  [noOpCol()] only emits a deprecation warning. *)
Definition escape (v : value) (options : Options) : result string :=
  let v :=
    match v with
    | VObj _ syms =>
        match getSym OpCol syms with
        | Some c => VMethod (Col [c])
        | None => v
        end
    | _ => v
    end in
  match v with
  | VMethod m => this_formatSequelizeMethod m options
  | VUndefined => Throw UndefinedCannotBeEscaped
  | VNull =>
      match bindParam options with
      | Some bind_ => Ok (bind_ VNull)
      | None => Ok "NULL"
      end
  | _ =>
      t <- match type options with
           | None | Some (SqlTypeName _) => bestGuessDataTypeOfVal dialect v
           | Some t => Ok (normalizeDataType dialect t)
           end ;;
      _ <- validate v t ;;
      match bindParam options with
      | Some bind_ => dataType_getBindParamSql dialect t v bind_
      | None => dataType_escape dialect t v
      end
  end.

Definition escapeList (values : list value) (options : Options)
  : result string :=
  escaped <- mapM (fun v => escape v options) values ;;
  Ok ("(" ++ String.concat ", " escaped ++ ")").

Definition formatJsonPath (v : value) (path : list string)
    (options : Options) : result string :=
  sql <- escape v options ;;
  match path with
  | [] => Ok sql
  | _ :: _ => jsonPathExtractionQuery2 sql path
  end.

(** [formatLiteral(piece, options)] with [val = piece.val]. *)
Definition formatLiteral (piece : method) (val : list part)
    (options : Options) : result string :=
  parts <- mapM (fun part =>
             match part with
             | PMethod _ => this_formatSequelizeMethod piece options
             | PStr s => Ok s
             end) val ;;
  let sql := String.concat "" parts in
  match replacements options with
  | Some r =>
      injectReplacements dialect sql r (PositionalReplacementInLiteral sql)
  | None => Ok sql
  end.

Definition formatAttribute (attributeName : string) (options : Options)
  : result string :=
  parsedAttributeName <- parseAttributeSyntax dialect attributeName ;;
  match parsedAttributeName with
  | Attribute parsedName =>
      match model options with
      | None => Ok (quoteIdentifier parsedName)
      | Some m => Ok (quoteIdentifier (getColumnNameLoose m parsedName))
      end
  | _ => this_formatSequelizeMethod parsedAttributeName options
  end.

Definition formatFn (fn : string) (args : list value) (options : Options)
  : result string :=
  formatted <- mapM (fun arg =>
                 match arg with
                 | VMethod m => this_formatSequelizeMethod m options
                 | _ => escape arg options
                 end) args ;;
  Ok (fn ++ "(" ++ String.concat ", " formatted ++ ")").

Definition formatCast (val : value) (t : DataType) (options : Options)
  : result string :=
  let t := normalizeDataType dialect t in
  sql <- escape val options ;;
  Ok ("CAST(" ++ sql ++ " AS " ++ toUpperCase (attributeTypeToSql dialect t) ++ ")").

(** [formatCol].  [identifiers[0].startsWith] is a method of strings only. *)
Definition formatCol (identifiers : list value) (options : Options)
  : result string :=
  match identifiers with
  | [VStr s] =>
      if startsWith s "*" then Ok "*"
      else quote dialect (VStr s) (model options) options
  | [v] => Throw (NotAFunction "startsWith" v)
  | _ => quote dialect (VArr identifiers) (model options) options
  end.

(** [#formatOpValues]. *)
Definition formatOpValues (v : value) (t : option DataType) : result string :=
  match v with
  | VObj _ syms =>
      match getSym OpValues syms with
      | Some vals =>
          let options := onlyType t in
          let operand := match vals with VArr l => l | _ => [vals] end in
          valueSql <- mapM (fun x =>
                        sql <- escape x options ;;
                        Ok ("(" ++ sql ++ ")")) operand ;;
          Ok ("VALUES " ++ String.concat ", " valueSql)
      | None => escape v (onlyType (option_map ARRAY t))
      end
  | _ => escape v (onlyType (option_map ARRAY t))
  end.

(** [#formatOpAnyAll]. *)
Definition formatOpAnyAll (v : value) (t : option DataType) : result string :=
  match v with
  | VObj _ syms =>
      match getSym OpAny syms with
      | Some x =>
          sql <- formatOpValues x t ;;
          Ok ("ANY (" ++ sql ++ ")")
      | None =>
          match getSym OpAll syms with
          | Some x =>
              sql <- formatOpValues x t ;;
              Ok ("ALL (" ++ sql ++ ")")
          | None => Ok ""
          end
      end
  | _ => Ok ""
  end.

Definition formatBinaryOperation (left_ : value) (leftDataType : option DataType)
    (operator : Op) (right_ : value) (rightDataType : option DataType)
    (options : Options) : result string :=
  match operatorMap operator with
  | None | Some EmptyString => Throw (OperatorNotSupported operator)
  | Some _ =>
      leftSql <- escape left_ (withType options (nullish leftDataType rightDataType)) ;;
      anyAllSql <- formatOpAnyAll right_ (nullish rightDataType leftDataType) ;;
      rightSql <- (if truthy anyAllSql then Ok anyAllSql
                   else escape right_
                          (withType options (nullish rightDataType leftDataType))) ;;
      Ok (wrapAmbiguousWhere left_ leftSql ++ " " ++ operatorText operator
            ++ " " ++ wrapAmbiguousWhere right_ rightSql)
  end.

(** The signature shared by the operator methods of [WhereSqlBuilder]. *)
Definition OperatorMethod : Type :=
  value -> option DataType -> Op -> value -> option DataType -> Options
  -> result string.

(** [[Op.in]]. *)
Definition Op_in : OperatorMethod :=
  fun left_ leftDataType operator right_ rightDataType options =>
  let rightEscapeOptions := withType options (nullish rightDataType leftDataType) in
  let leftEscapeOptions := withType options (nullish leftDataType rightDataType) in
  let finish (rightSql : string) : result string :=
    leftSql <- escape left_ leftEscapeOptions ;;
    Ok (leftSql ++ " " ++ operatorText operator ++ " " ++ rightSql) in
  match right_ with
  | VMethod (Literal _) =>
      rightSql <- escape right_ rightEscapeOptions ;;
      finish rightSql
  | VArr [] =>
      if Op_eqb operator OpNotIn then Ok "" else finish "(NULL)"
  | VArr items =>
      rightSql <- escapeList items rightEscapeOptions ;;
      finish rightSql
  | _ => Throw InRequiresArrayOrLiteral
  end.

Definition Op_notIn : OperatorMethod := Op_in.

(** [[Op.is]]. *)
Definition Op_is : OperatorMethod :=
  fun left_ leftDataType operator right_ rightDataType options =>
  match right_ with
  | VNull | VBool _ | VMethod (Literal _) =>
      formatBinaryOperation left_ leftDataType operator right_ rightDataType options
  | _ => Throw IsRequiresNullBooleanOrLiteral
  end.

Definition Op_isNot : OperatorMethod := Op_is.

(** [[Op.between]]. *)
Definition Op_between : OperatorMethod :=
  fun left_ leftDataType operator right_ rightDataType options =>
  let rightEscapeOptions := withType options (nullish rightDataType leftDataType) in
  let leftEscapeOptions := withType options (nullish leftDataType rightDataType) in
  leftSql <- escape left_ leftEscapeOptions ;;
  rightSql <- match right_ with
              | VMethod _ => escape right_ rightEscapeOptions
              | VArr [right0; right1] =>
                  sql0 <- escape right0 rightEscapeOptions ;;
                  sql1 <- escape right1 rightEscapeOptions ;;
                  Ok (sql0 ++ " AND " ++ sql1)
              | _ => Throw BetweenRequiresPairOrLiteral
              end ;;
  Ok (leftSql ++ " " ++ operatorText operator ++ " " ++ rightSql).

Definition Op_notBetween : OperatorMethod := Op_between.

(** [[Op.contains]]. *)
Definition Op_contains : OperatorMethod :=
  fun left_ leftDataType operator right_ rightDataType options =>
  match rightDataType, leftDataType with
  | None, Some (RANGE subtype) =>
      if negb (isArray right_) then
        formatBinaryOperation left_ leftDataType operator right_ (Some subtype) options
      else
        formatBinaryOperation left_ leftDataType operator right_ rightDataType options
  | _, _ =>
      formatBinaryOperation left_ leftDataType operator right_ rightDataType options
  end.

(** [[Op.contained]]. *)
Definition Op_contained : OperatorMethod :=
  fun left_ leftDataType operator right_ rightDataType options =>
  if instanceofAbstractDataType leftDataType
     && negb (instanceofRANGE leftDataType)
     && negb (instanceofARRAY leftDataType)
     && isArray right_
  then
    formatBinaryOperation left_ leftDataType operator right_
      (option_map RANGE leftDataType) options
  else
    formatBinaryOperation left_ leftDataType operator right_ rightDataType options.

Definition formatSubstring (left_ : value) (leftDataType : option DataType)
    (operator : Op) (right_ : value) (rightDataType : option DataType)
    (options : Options) (start end_ : bool) : result string :=
  match right_ with
  | VStr s =>
      let startToken := if start then "%" else "" in
      let endToken := if end_ then "%" else "" in
      formatBinaryOperation left_ leftDataType operator
        (VStr (startToken ++ s ++ endToken)) rightDataType options
  | _ =>
      let escapedPercent := escapeString dialect "%" in
      let literalBuilder :=
        ([PStr "CONCAT("]
           ++ (if start then [PStr escapedPercent; PStr ", "] else [])
           ++ [PMethod (Value right_)]
           ++ (if end_ then [PStr ", "; PStr escapedPercent] else [])
           ++ [PStr ")"])%list in
      formatBinaryOperation left_ leftDataType operator
        (VMethod (Literal literalBuilder)) rightDataType options
  end.

Definition Op_startsWith : OperatorMethod :=
  fun left_ leftDataType operator right_ rightDataType options =>
  formatSubstring left_ leftDataType OpLike right_ rightDataType options false true.

Definition Op_notStartsWith : OperatorMethod :=
  fun left_ leftDataType operator right_ rightDataType options =>
  formatSubstring left_ leftDataType OpNotLike right_ rightDataType options false true.

Definition Op_endsWith : OperatorMethod :=
  fun left_ leftDataType operator right_ rightDataType options =>
  formatSubstring left_ leftDataType OpLike right_ rightDataType options true false.

Definition Op_notEndsWith : OperatorMethod :=
  fun left_ leftDataType operator right_ rightDataType options =>
  formatSubstring left_ leftDataType OpNotLike right_ rightDataType options true false.

Definition Op_substring : OperatorMethod :=
  fun left_ leftDataType operator right_ rightDataType options =>
  formatSubstring left_ leftDataType OpLike right_ rightDataType options true true.

Definition Op_notSubstring : OperatorMethod :=
  fun left_ leftDataType operator right_ rightDataType options =>
  formatSubstring left_ leftDataType OpNotLike right_ rightDataType options true true.

Definition Op_anyKeyExists : OperatorMethod :=
  fun left_ leftDataType operator right_ rightDataType options =>
  formatBinaryOperation left_ leftDataType operator right_
    (Some arrayOfTextType) options.

Definition Op_allKeysExist : OperatorMethod :=
  fun left_ leftDataType operator right_ rightDataType options =>
  formatBinaryOperation left_ leftDataType operator right_
    (Some arrayOfTextType) options.

(** [operator in this ? this[operator] : this.formatBinaryOperation]. *)
Definition operatorMethod (operator : Op) : OperatorMethod :=
  match operator with
  | OpNotIn => Op_notIn
  | OpIn => Op_in
  | OpIsNot => Op_isNot
  | OpIs => Op_is
  | OpNotBetween => Op_notBetween
  | OpBetween => Op_between
  | OpContains => Op_contains
  | OpContained => Op_contained
  | OpStartsWith => Op_startsWith
  | OpNotStartsWith => Op_notStartsWith
  | OpEndsWith => Op_endsWith
  | OpNotEndsWith => Op_notEndsWith
  | OpSubstring => Op_substring
  | OpNotSubstring => Op_notSubstring
  | OpAnyKeyExists => Op_anyKeyExists
  | OpAllKeysExist => Op_allKeysExist
  | _ => formatBinaryOperation
  end.

(** The closure that [formatPojoWhere] passes as [handlePart]. *)
Definition formatPojoWhere_handlePart (options : Options) : LeafHandler :=
  fun left_ operator right_ leftDataType =>
  let leftDataType :=
    match leftDataType, left_ with
    | None, VMethod (JsonPath _ _) => Some jsonType
    | _, _ => leftDataType
    end in
  let resolved := resolveOperator leftDataType operator right_ in
  let operator := fst resolved in
  parsedRight <- match snd resolved with
                 | VMethod (Attribute attributeName) =>
                     m <- parseAttributeSyntax dialect attributeName ;;
                     Ok (VMethod m)
                 | r => Ok r
                 end ;;
  let rightDataType := getOperandType parsedRight (model options) in
  sql <- operatorMethod operator left_ leftDataType operator parsedRight
           rightDataType options ;;
  Ok (sql, leftDataType).

Definition formatPojoWhere (pojoWhere : PojoWhere) (options : Options)
  : result string :=
  leftPreJsonPath <- match leftOperand pojoWhere with
                     | VMethod (Attribute attributeName) =>
                         m <- parseAttributeSyntax dialect attributeName ;;
                         Ok (VMethod m)
                     | l => Ok l
                     end ;;
  let leftDataType := getOperandType leftPreJsonPath (model options) in
  let operandIsJsonColumn :=
    match leftDataType with
    | None => true
    | Some _ => instanceofJSON leftDataType
    end in
  r <- handleRecursiveNotOrAndNestedPathRecursive leftPreJsonPath
         (whereValue pojoWhere) operandIsJsonColumn
         (formatPojoWhere_handlePart options) OpAnd [] leftDataType ;;
  Ok (fst r).

(** [formatWhereOptions]: whatever is thrown inside the [try] is rethrown
    wrapped, with the original error as its [cause]. *)
Definition formatWhereOptions (where_ : value) (options : Options)
  : result string :=
  match where_ with
  | VStr _ => Throw RawWhereStringRemoved
  | _ =>
      match
        handleRecursiveNotOrAndWithImplicitAndArray where_
          (fun piece =>
             match piece with
             | PartMethod m => this_formatSequelizeMethod m options
             | PartPojoWhere p => formatPojoWhere p options
             end)
          OpAnd
      with
      | Ok sql => Ok sql
      | Throw e => Throw (InvalidWhereOption where_ e)
      | OutOfFuel => OutOfFuel
      end
  end.

(** The body of [formatSequelizeMethod]. *)
Definition formatSequelizeMethod_body (piece : method) (options : Options)
  : result string :=
  match piece with
  | Literal val => formatLiteral piece val options
  | Fn fn args => formatFn fn args options
  | List values => escapeList values options
  | Value v => escape v options
  | Identifier v => Ok (quoteIdentifier v)
  | Cast val t => formatCast val t options
  | Col identifiers => formatCol identifiers options
  | Attribute attributeName => formatAttribute attributeName options
  | Where (VPojoWhere p) => formatPojoWhere p options
  | Where w => formatWhereOptions w options
  | JsonPath v path => formatJsonPath v path options
  | AssociationPath associationPath attribute =>
      Ok (formatAssociationPath associationPath attribute)
  | OtherMethod constructorName => Ok (constructorName ++ " TODO")
  end.

End Recursion.

(** [formatSequelizeMethod]: the recursion through
    [this.formatSequelizeMethod] is not structural (an operand can be
    rebuilt before it is formatted again), so it is bounded by [fuel]. *)
Fixpoint formatSequelizeMethod (fuel : nat) (piece : method) (options : Options)
  : result string :=
  match fuel with
  | O => OutOfFuel
  | S fuel' => formatSequelizeMethod_body (formatSequelizeMethod fuel') piece options
  end.

(** [whereItemsQuery(where, options)], the entry point the specification
    calls [compileWhere]. *)
Definition whereItemsQuery (fuel : nat) (where_ : value) (options : Options)
  : result string :=
  formatWhereOptions (formatSequelizeMethod fuel) where_ options.

(** The public [escape(value, options)], the entry point the specification
    calls [escapeValue]. *)
Definition escapeValue (fuel : nat) (v : value) (options : Options)
  : result string :=
  escape (formatSequelizeMethod fuel) v options.

End QueryGenerator.

(* ------------------------------------------------------------------ *)
(** ** A small dialect for worked examples *)

(** Identifiers are quoted with square brackets, numbers are rendered in
    decimal, strings between single quotes, JSON values as quoted JSON text,
    attribute names carry no special syntax, and a JSON path is rendered with
    arrows.  Nothing is validated and there are no replacements. *)
Definition sample_escape (t : DataType) (v : value) : result string :=
  match v with
  | VNum n =>
      match t with
      | JSON => Ok ("'" ++ numberToString n ++ "'")
      | _ => Ok (numberToString n)
      end
  | VStr s => Ok ("'" ++ s ++ "'")
  | VBool true => Ok "true"
  | VBool false => Ok "false"
  | _ => Throw (CollaboratorError "this value cannot be escaped")
  end.

Definition sampleDialect : Dialect := {|
  TICK_CHAR_LEFT := "[";
  TICK_CHAR_RIGHT := "]";
  supports_jsonOperations := true;
  escapeString := fun s => "'" ++ s ++ "'";
  utils_quoteIdentifier := fun identifier leftTick rightTick =>
    leftTick ++ identifier ++ rightTick;
  parseAttributeSyntax := fun attributeName => Ok (Attribute attributeName);
  injectReplacements := fun sql _ _ => Ok sql;
  bestGuessDataTypeOfVal := fun v =>
    match v with
    | VNum _ => Ok (AbstractDataType "INTEGER")
    | VStr _ => Ok (AbstractDataType "STRING")
    | VBool _ => Ok (AbstractDataType "BOOLEAN")
    | _ => Throw (CollaboratorError "no data type for this value")
    end;
  validateDataType := fun _ _ => None;
  attributeTypeToSql := fun t =>
    match t with
    | SqlTypeName n | AbstractDataType n => n
    | JSON => "json"
    | TEXT => "text"
    | ARRAY _ => "array"
    | RANGE _ => "range"
    end;
  normalizeDataType := fun t => t;
  noTypeValidation := false;
  dataType_escape := sample_escape;
  dataType_getBindParamSql := fun _ v bind_ => Ok (bind_ v);
  quote := fun v _ _ =>
    match v with
    | VStr s => Ok ("[" ++ s ++ "]")
    | _ => Throw (CollaboratorError "quote: unsupported collection")
    end;
  jsonPathExtractionQuery2_override :=
    Some (fun v path => Ok (v ++ "->" ++ String.concat "->" path))
|}.

(** A model whose attribute [a] is declared with the JSON type. *)
Definition jsonModel : ModelStatic :=
  ModelDefinition
    (fun attributeName => attributeName)
    (fun attributeName => if String.eqb attributeName "a" then Some JSON else None)
    (fun _ => None).

(** [{ [key]: v }] for an attribute name and for an operator. *)
Definition attr (key : string) (v : value) : value := VObj [(key, v)] [].
Definition oper (key : Op) (v : value) : value := VObj [] [(key, v)].

(* ------------------------------------------------------------------ *)
(** ** Notions used by the specification *)

(** A fragment is fully parenthesized when it opens with a parenthesis whose
    matching closing parenthesis is the last character of the fragment.
    [closesAtEnd depth s] scans the text after the opening parenthesis, [depth]
    parentheses being open. *)
Fixpoint closesAtEnd (depth : nat) (s : string) : bool :=
  match s with
  | EmptyString => false
  | String c rest =>
      if Ascii.eqb c "("%char then closesAtEnd (S depth) rest
      else if Ascii.eqb c ")"%char then
        match depth with
        | O => false
        | S O => String.eqb rest ""
        | S d => closesAtEnd d rest
        end
      else closesAtEnd depth rest
  end.

Definition fullyParenthesized (s : string) : bool :=
  match s with
  | String c rest => Ascii.eqb c "("%char && closesAtEnd 1 rest
  | EmptyString => false
  end.

(** [sql] contains [token] when letter case is ignored. *)
Definition containsIgnoreCase (token sql : string) : Prop :=
  exists before middle after_ : string,
    sql = before ++ middle ++ after_ /\ toUpperCase middle = toUpperCase token.

(** The fragment that enters the join: parenthesized when it contains an
    [AND] or an [OR] between spaces, verbatim otherwise. *)
Definition guardedFragment (sql out : string) : Prop :=
  ((containsIgnoreCase " AND " sql \/ containsIgnoreCase " OR " sql)
   /\ out = "(" ++ sql ++ ")")
  \/ (~ (containsIgnoreCase " AND " sql \/ containsIgnoreCase " OR " sql)
      /\ out = sql).

(** The valid shapes of a top-level where value: an array, a plain object or a
    SequelizeMethod. *)
Definition topLevelShape (where_ : value) : bool :=
  isArray where_ || isPlainObject where_ || isSequelizeMethod where_.

(** Some element of a literal is a SequelizeMethod. *)
Definition hasMethodPart (val : list part) : bool :=
  existsb (fun p => match p with PMethod _ => true | PStr _ => false end) val.

(* ------------------------------------------------------------------ *)
(** ** The object pool *)

(** [class ObjectPool<T>]: its private fields.  [factory] is the object that a
    call of [#factory] returns. *)
Record ObjectPool (T : Type) : Type := {
  freeItems : list T;
  factory : T;
  lastOccupiedIndex : Z
}.

(** [new ObjectPool(factory, initialSize)]. *)
Definition ObjectPool_new {T : Type} (factory_ : T) (initialSize : nat)
  : ObjectPool T :=
  {| freeItems := repeat factory_ initialSize;
     factory := factory_;
     lastOccupiedIndex := Z.of_nat initialSize - 1 |}.

(** [getObject()]: the object returned ([None] is [undefined], the value of an
    array read past the end) and the pool afterwards. *)
Definition getObject {T : Type} (pool : ObjectPool T) : option T * ObjectPool T :=
  if (lastOccupiedIndex pool <? 0)%Z then (Some (factory pool), pool)
  else
    (nth_error (freeItems pool) (Z.to_nat (lastOccupiedIndex pool)),
     {| freeItems := freeItems pool;
        factory := factory pool;
        lastOccupiedIndex := lastOccupiedIndex pool - 1 |}).

(** [items[index] = val] for an index below the length of the array; a
    negative index leaves the elements as they are. *)
Fixpoint assignAt {T : Type} (items : list T) (index : nat) (val : T) : list T :=
  match items, index with
  | [], _ => []
  | _ :: rest, O => val :: rest
  | x :: rest, S i => x :: assignAt rest i val
  end.

Definition assignIndex {T : Type} (items : list T) (index : Z) (val : T) : list T :=
  if (index <? 0)%Z then items else assignAt items (Z.to_nat index) val.

(** [free(val)]. *)
Definition free {T : Type} (pool : ObjectPool T) (val : T) : ObjectPool T :=
  if (lastOccupiedIndex pool >=? Z.of_nat (length (freeItems pool)) - 1)%Z then
    {| freeItems := (freeItems pool ++ [val])%list;
       factory := factory pool;
       lastOccupiedIndex := lastOccupiedIndex pool |}
  else
    {| freeItems := assignIndex (freeItems pool) (lastOccupiedIndex pool + 1) val;
       factory := factory pool;
       lastOccupiedIndex := lastOccupiedIndex pool + 1 |}.

(** [pojoWherePool]: twenty [PojoWhere] objects whose fields are not set. *)
Definition pojoWherePool : ObjectPool PojoWhere :=
  ObjectPool_new (PojoWhere_create VUndefined VUndefined) 20.

(** The indices up to [lastOccupiedIndex] are those of the array that hold a
    free object. *)
Definition poolInvariant {T : Type} (pool : ObjectPool T) : Prop :=
  (-1 <= lastOccupiedIndex pool < Z.of_nat (length (freeItems pool)))%Z.

(* ------------------------------------------------------------------ *)
(** ** Table names *)

(** [TableNameWithSchema]: the keys the file reads, and the names of the other
    keys of the object. *)
Record TableNameWithSchema : Type := {
  tableName : string;
  schema : option string;
  delimiter : option string;
  otherKeys : list string
}.

(** [TableNameOrModel], and [TableOther] for a value of any other kind.  A
    model class is given by the table that its [getTableName()] returns. *)
Inductive TableNameOrModel : Type :=
| TableString (name : string)
| TableObject (table : TableNameWithSchema)
| TableModel (getTableName : TableNameWithSchema)
| TableOther (description : string).

(** The [alias] argument of [quoteTable]: [boolean | string]. *)
Inductive TableAlias : Type :=
| AliasBoolean (b : bool)
| AliasString (name : string).

(** What the table methods read from [this.dialect] and [this.options]. *)
Record SchemaSettings : Type := {
  supports_schemas : bool;
  getDefaultSchema : string;
  options_schema : option string
}.

(** The errors of the table methods. *)
Inductive tableError : Type :=
| InvalidTableInput (input : TableNameOrModel)
| AsAndNameNotAllowed.

(** [a || b] when [a] is a string or [undefined]. *)
Definition orElse (a : option string) (b : string) : string :=
  match a with
  | Some s => if truthy s then s else b
  | None => b
  end.

Section TableNames.

Variable dialect : Dialect.
Variable settings : SchemaSettings.

(** [extractTableDetails(tableNameOrModel, options)], with
    [optionsSchema = options?.schema] and [optionsDelimiter = options?.delimiter].
    The [toString] key that the method deletes is not among [otherKeys]. *)
Definition extractTableDetails (tableNameOrModel : TableNameOrModel)
    (optionsSchema optionsDelimiter : option string)
  : tableError + TableNameWithSchema :=
  let tableNameObject :=
    match tableNameOrModel with
    | TableModel t => Some t
    | TableString s =>
        Some {| tableName := s; schema := None; delimiter := None; otherKeys := [] |}
    | TableObject t => Some t
    | TableOther _ => None
    end in
  match tableNameObject with
  | None => inl (InvalidTableInput tableNameOrModel)
  | Some t =>
      inr {| tableName := tableName t;
             schema :=
               Some (orElse optionsSchema
                       (orElse (schema t)
                          (orElse (options_schema settings)
                             (getDefaultSchema settings))));
             delimiter := Some (orElse optionsDelimiter (orElse (delimiter t) "."));
             otherKeys := otherKeys t |}
  end.

(** [quoteTable(param, alias)]. *)
Definition quoteTable (param : TableNameOrModel) (alias : TableAlias)
  : tableError + string :=
  let param :=
    match param with
    | TableModel t => TableObject t
    | _ => param
    end in
  match extractTableDetails param None None with
  | inl e => inl e
  | inr details =>
      let asOrName :=
        match param with
        | TableObject t =>
            existsb (String.eqb "as") (otherKeys t)
            || existsb (String.eqb "name") (otherKeys t)
        | _ => false
        end in
      if asOrName then inl AsAndNameNotAllowed
      else
        let alias :=
          match alias with
          | AliasBoolean true => tableName details
          | AliasBoolean false => ""
          | AliasString a => a
          end in
        let schema_ := orElse (schema details) "" in
        let hasSchema :=
          truthy schema_ && negb (String.eqb schema_ (getDefaultSchema settings)) in
        let sql :=
          if supports_schemas settings then
            (if hasSchema then quoteIdentifier dialect schema_ ++ "." else "")
              ++ quoteIdentifier dialect (tableName details)
          else
            let fakeSchemaPrefix :=
              if hasSchema then schema_ ++ orElse (delimiter details) "." else "" in
            quoteIdentifier dialect (fakeSchemaPrefix ++ tableName details) in
        inr (if truthy alias then sql ++ " AS " ++ quoteIdentifier dialect alias
             else sql)
  end.

(** [describeTableQuery(tableName)]. *)
Definition describeTableQuery (table : TableNameOrModel) : tableError + string :=
  match quoteTable table (AliasBoolean false) with
  | inl e => inl e
  | inr sql => inr ("DESCRIBE " ++ sql ++ ";")
  end.

(** [isSameTable(tableA, tableB)]; [identical] is [tableA === tableB], which
    for two objects is the identity of the references. *)
Definition isSameTable (identical : bool) (tableA tableB : TableNameOrModel)
  : tableError + bool :=
  if identical then inr true
  else
    match extractTableDetails tableA None None with
    | inl e => inl e
    | inr a =>
        match extractTableDetails tableB None None with
        | inl e => inl e
        | inr b =>
            inr (String.eqb (tableName a) (tableName b)
                 && String.eqb (orElse (schema a) "") (orElse (schema b) ""))
        end
    end.

End TableNames.

(* ------------------------------------------------------------------ *)
(** ** Lemmas on the string primitives *)

Lemma truthy_false_iff (s : string) : truthy s = false <-> s = "".
Proof.
  destruct s; simpl; split; intro H; try reflexivity; discriminate H.
Qed.

Lemma truthy_true_iff (s : string) : truthy s = true <-> s <> "".
Proof.
  destruct s; simpl; split; intro H; try reflexivity; try discriminate.
  now contradiction H.
Qed.

Lemma startsWith_iff (s p : string) :
  startsWith s p = true <-> exists rest, s = p ++ rest.
Proof.
  unfold startsWith. revert s.
  induction p as [|a p IH]; intros s; simpl.
  - split; [intros _; now exists s | intros _; now destruct s].
  - destruct s as [|b s]; simpl.
    + split; [discriminate | intros [rest H]; discriminate H].
    + destruct (Ascii.ascii_dec a b) as [->|Hab].
      * rewrite IH. split; intros [rest H]; exists rest.
        -- now rewrite H.
        -- now injection H.
      * split; [discriminate|]. intros [rest H]. injection H as H1 _.
        now contradiction Hab.
Qed.

Lemma endsWith_iff (s p : string) :
  endsWith s p = true <-> exists before, s = before ++ p.
Proof.
  induction s as [|c s IH]; cbn [endsWith].
  - destruct (String.eqb_spec "" p) as [<-|Hne].
    + split; [intros _; now exists "" | intros _; reflexivity].
    + split; [discriminate|]. intros [before H].
      destruct before; simpl in H; [now contradiction Hne | discriminate H].
  - destruct (String.eqb_spec (String c s) p) as [<-|Hne].
    + split; [intros _; now exists "" | intros _; reflexivity].
    + rewrite IH. split.
      * intros [before ->]. now exists (String c before).
      * intros [before H]. destruct before as [|b before]; simpl in H.
        -- now contradiction Hne.
        -- injection H as _ H. now exists before.
Qed.

Lemma toUpperCase_app (s t : string) :
  toUpperCase (s ++ t) = toUpperCase s ++ toUpperCase t.
Proof. induction s; simpl; congruence. Qed.

Lemma matchesAtHeadIgnoreCase_iff (p s : string) :
  matchesAtHeadIgnoreCase p s = true
  <-> exists middle after_, s = middle ++ after_ /\ toUpperCase middle = toUpperCase p.
Proof.
  revert s. induction p as [|a p IH]; intros s; simpl.
  - split; [intros _; now exists "", s | intros _; reflexivity].
  - destruct s as [|b s].
    + split; [discriminate|]. intros (m & t & H & Hu).
      destruct m; simpl in *; discriminate.
    + rewrite andb_true_iff, IH, Ascii.eqb_eq. split.
      * intros (Hab & m & t & -> & Hu). exists (String b m), t.
        simpl. now rewrite Hu, Hab.
      * intros (m & t & H & Hu). destruct m as [|c m]; simpl in *; [discriminate|].
        injection H as -> ->. injection Hu as Hc Hu.
        split; [now symmetry|]. now exists m, t.
Qed.

Lemma containsIgnoreCase_nil (token : string) :
  token <> "" -> ~ containsIgnoreCase token "".
Proof.
  intros Hne (b & m & a & H & Hu).
  destruct b; simpl in H; [|discriminate].
  destruct m; simpl in H; [|discriminate].
  destruct token; simpl in Hu; [now apply Hne | discriminate].
Qed.

Lemma containsIgnoreCase_cons (token : string) (c : ascii) (s : string) :
  token <> "" ->
  containsIgnoreCase token (String c s)
  <-> matchesAtHeadIgnoreCase token (String c s) = true \/ containsIgnoreCase token s.
Proof.
  intros Hne. rewrite matchesAtHeadIgnoreCase_iff. split.
  - intros (b & m & a & H & Hu). destruct b as [|b0 b]; simpl in H.
    + left. now exists m, a.
    + right. injection H as _ ->. now exists b, m, a.
  - intros [(m & a & H & Hu) | (b & m & a & -> & Hu)].
    + now exists "", m, a.
    + now exists (String c b), m, a.
Qed.

Lemma testAndOr_iff (sql : string) :
  testAndOr sql = true
  <-> containsIgnoreCase " AND " sql \/ containsIgnoreCase " OR " sql.
Proof.
  induction sql as [|c s IH].
  - simpl. split; [discriminate|].
    intros [H|H]; exfalso; revert H; now apply containsIgnoreCase_nil.
  - rewrite !containsIgnoreCase_cons by discriminate.
    change (testAndOr (String c s))
      with (if matchesAtHeadIgnoreCase " AND " (String c s)
               || matchesAtHeadIgnoreCase " OR " (String c s)
            then true else testAndOr s).
    destruct (matchesAtHeadIgnoreCase " AND " (String c s));
      destruct (matchesAtHeadIgnoreCase " OR " (String c s)); simpl;
      rewrite ?IH; intuition discriminate.
Qed.

Lemma truthy_negb_eqb (s : string) : truthy s = negb (String.eqb s "").
Proof. now destruct s. Qed.

Lemma enclosed_iff (sql : string) :
  startsWith sql "(" && endsWith sql ")" = true
  <-> exists inner, sql = "(" ++ inner ++ ")".
Proof.
  rewrite andb_true_iff, startsWith_iff, endsWith_iff. split.
  - intros [[rest ->] [before H]]. destruct before as [|b before]; simpl in H.
    + discriminate H.
    + injection H as _ ->. now exists before.
  - intros [inner ->]. split; [now exists (inner ++ ")") | now exists (String "(" inner)].
Qed.

Lemma closesAtEnd_endsWith (s : string) :
  forall depth, closesAtEnd depth s = true -> endsWith s ")" = true.
Proof.
  induction s as [|c s IH]; intros depth; [discriminate|].
  cbn [closesAtEnd endsWith].
  destruct (String.eqb_spec (String c s) ")") as [_|Hne]; [reflexivity|].
  destruct (Ascii.eqb c "("); [apply IH|].
  destruct (Ascii.eqb_spec c ")") as [->|_]; [|apply IH].
  destruct depth as [|[|d]]; [discriminate | | apply IH].
  intros H. apply String.eqb_eq in H. subst s. now contradiction Hne.
Qed.

Lemma fullyParenthesized_enclosed (sql : string) :
  fullyParenthesized sql = true -> startsWith sql "(" && endsWith sql ")" = true.
Proof.
  destruct sql as [|c s]; [discriminate|].
  unfold fullyParenthesized. rewrite andb_true_iff. intros [Hc Hs].
  apply Ascii.eqb_eq in Hc. subst c.
  apply closesAtEnd_endsWith in Hs.
  apply andb_true_iff. split; [now destruct s|].
  cbn [endsWith]. destruct (String.eqb (String "(" s) ")"); [reflexivity | exact Hs].
Qed.

Lemma guardedFragment_map (l : list string) :
  Forall2 guardedFragment l
    (map (fun sql => if testAndOr sql then "(" ++ sql ++ ")" else sql) l).
Proof.
  induction l as [|sql l IH]; simpl; constructor; [|exact IH].
  destruct (testAndOr sql) eqn:H.
  - left. split; [now apply testAndOr_iff | reflexivity].
  - right. split; [|reflexivity]. intros Hc. apply testAndOr_iff in Hc. congruence.
Qed.

(* ------------------------------------------------------------------ *)
(** ** Lemmas on the result monad *)

Lemma mapM_OutOfFuel {A B : Type} (f : A -> result B) (l : list A) :
  (forall x, In x l -> f x = OutOfFuel \/ exists y, f x = Ok y) ->
  (exists x, In x l /\ f x = OutOfFuel) ->
  mapM f l = OutOfFuel.
Proof.
  induction l as [|a l IH]; intros Hall [x [Hin Hx]]; [destruct Hin|].
  simpl. destruct (Hall a (or_introl eq_refl)) as [Ha | [y Ha]]; rewrite Ha; simpl.
  - reflexivity.
  - destruct Hin as [<- | Hin]; [congruence|].
    rewrite IH; [reflexivity | | now exists x].
    intros z Hz. apply Hall. now right.
Qed.

Lemma bind_pair_eta {A S : Type} (r : result (A * S)) :
  (x <- r ;; Ok (fst x, snd x)) = r.
Proof. destruct r as [[a s]| |]; reflexivity. Qed.

Lemma joinWithLogicalOperator_single (sql : string) (operator : Op) :
  joinWithLogicalOperator [sql] operator = sql.
Proof. unfold joinWithLogicalOperator. simpl. now destruct sql. Qed.

(* ------------------------------------------------------------------ *)
(** ** Joining fragments *)

(** C7.  The joining rule, for every list of fragments and for both
    connectives: the empty fragments are dropped; if none remains the result
    is the empty string; if exactly one remains it is returned verbatim; if two
    or more remain, every fragment that contains [" AND "] or [" OR "] in any
    letter case is put between parentheses and the fragments are joined with
    the connective. *)
Theorem joinWithLogicalOperator_rule (sqlArray : list string) (operator : Op)
    (separator : string) :
  (operator = OpAnd /\ separator = " AND ") \/ (operator = OpOr /\ separator = " OR ") ->
  let kept := filter (fun sql => negb (String.eqb sql "")) sqlArray in
  (kept = [] -> joinWithLogicalOperator sqlArray operator = "")
  /\ (forall sql, kept = [sql] -> joinWithLogicalOperator sqlArray operator = sql)
  /\ (2 <= length kept ->
      exists guarded,
        Forall2 guardedFragment kept guarded
        /\ joinWithLogicalOperator sqlArray operator = String.concat separator guarded).
Proof.
  intros Hop kept.
  assert (Hkept : filter truthy sqlArray = kept).
  { unfold kept. apply filter_ext. exact truthy_negb_eqb. }
  unfold joinWithLogicalOperator. rewrite Hkept.
  assert (Hsep : (if Op_eqb operator OpAnd then " AND " else " OR ") = separator).
  { destruct Hop as [[-> ->] | [-> ->]]; reflexivity. }
  rewrite Hsep. clear Hkept Hsep Hop.
  destruct kept as [|a [|b rest]]; repeat split.
  - intros sql H. discriminate H.
  - simpl. lia.
  - discriminate.
  - intros sql H. now injection H.
  - simpl. lia.
  - discriminate.
  - intros sql H. discriminate H.
  - intros _. eexists. split; [apply guardedFragment_map | reflexivity].
Qed.

Lemma joinWithLogicalOperator_rule_witness :
  exists guarded,
    Forall2 guardedFragment ["a = 1 or b = 2"; "c = 3"] guarded
    /\ joinWithLogicalOperator [""; "a = 1 or b = 2"; ""; "c = 3"] OpAnd
       = String.concat " AND " guarded.
Proof.
  apply (@joinWithLogicalOperator_rule [""; "a = 1 or b = 2"; ""; "c = 3"]
           OpAnd " AND " (or_introl (conj eq_refl eq_refl))).
  simpl. lia.
Defined.

(* ------------------------------------------------------------------ *)
(** ** Negation *)

(** What [wrapWithNot] guarantees: an empty fragment stays empty; a fully
    parenthesized fragment is only prefixed with [NOT ]; a non-empty fragment
    that does not both begin with an opening and end with a closing
    parenthesis is wrapped as [NOT (fragment)]; and [{[Op.not]: {a: 1}}]
    compiles to [NOT ([a] = 1)]. *)
Theorem wrapWithNot_rule (sql : string) :
  (sql = "" -> wrapWithNot sql = "")
  /\ (fullyParenthesized sql = true -> wrapWithNot sql = "NOT " ++ sql)
  /\ (sql <> "" -> ~ (exists inner, sql = "(" ++ inner ++ ")") ->
      wrapWithNot sql = "NOT (" ++ sql ++ ")")
  /\ (forall fuel,
        whereItemsQuery sampleDialect (S fuel) (oper OpNot (attr "a" (VNum 1)))
          EMPTY_OBJECT
        = Ok "NOT ([a] = 1)").
Proof.
  unfold wrapWithNot. repeat split.
  - intros ->. reflexivity.
  - intros H. pose proof (fullyParenthesized_enclosed _ H) as He. rewrite He.
    destruct sql; [discriminate H | reflexivity].
  - intros Hne Hno. apply truthy_true_iff in Hne. rewrite Hne. simpl.
    destruct (startsWith sql "(" && endsWith sql ")") eqn:He; [|reflexivity].
    apply enclosed_iff in He. now contradiction Hno.
Qed.

Lemma wrapWithNot_rule_witness :
  wrapWithNot "" = ""
  /\ wrapWithNot "(a = 1 OR b = 2)" = "NOT (a = 1 OR b = 2)"
  /\ wrapWithNot "a = 1" = "NOT (a = 1)".
Proof.
  split; [|split].
  - apply (proj1 (wrapWithNot_rule "")). reflexivity.
  - apply (proj1 (proj2 (wrapWithNot_rule "(a = 1 OR b = 2)"))). reflexivity.
  - apply (proj1 (proj2 (proj2 (wrapWithNot_rule "a = 1")))).
    + discriminate.
    + intros [inner H]. discriminate H.
Defined.

(** C6 fails on the code.  The fragment compiled from
    [{[Op.or]: [{a: 1, b: 2}, {c: 3, d: 4}]}] is not empty and not fully
    parenthesized (its first parenthesis closes before the [OR]), yet
    [wrapWithNot] only prefixes it instead of wrapping it as [NOT (fragment)]:
    in the SQL compiled from [{[Op.not]: {[Op.or]: [...]}}] the negation
    covers the first group only. *)
Theorem wrapWithNot_misses_unmatched_parentheses :
  let inner := oper OpOr (VArr [VObj [("a", VNum 1); ("b", VNum 2)] [];
                                VObj [("c", VNum 3); ("d", VNum 4)] []]) in
  let fragment := "([a] = 1 AND [b] = 2) OR ([c] = 3 AND [d] = 4)" in
  whereItemsQuery sampleDialect 1 inner EMPTY_OBJECT = Ok fragment
  /\ fragment <> ""
  /\ fullyParenthesized fragment = false
  /\ wrapWithNot fragment <> "NOT (" ++ fragment ++ ")"
  /\ whereItemsQuery sampleDialect 1 (oper OpNot inner) EMPTY_OBJECT
     = Ok ("NOT " ++ fragment).
Proof.
  cbv zeta. repeat split; try reflexivity; discriminate.
Qed.

(* ------------------------------------------------------------------ *)
(** ** JSON paths *)

Lemma wrapJsonPath_JsonPath (v : value) (path jsonPath : list string) :
  wrapJsonPath (VMethod (JsonPath v path)) jsonPath
  = VMethod (JsonPath v (path ++ jsonPath)%list).
Proof.
  destruct jsonPath; simpl; [now rewrite app_nil_r | reflexivity].
Qed.

Lemma wrapJsonPath_app (operand : value) (p q : list string) :
  wrapJsonPath (wrapJsonPath operand p) q = wrapJsonPath operand (p ++ q)%list.
Proof.
  destruct p as [|a p]; [reflexivity|].
  destruct q as [|b q]; [now rewrite app_nil_r|].
  assert (H : forall v path,
             wrapJsonPath (VMethod (JsonPath v path)) (b :: q)
             = VMethod (JsonPath v (path ++ b :: q)%list)) by reflexivity.
  destruct operand as [| | | | | | | [] | |]; cbn [wrapJsonPath app];
    rewrite ?H, <- ?app_assoc; reflexivity.
Qed.

(** A nested hash of two string keys over an operand whose JSON paths may be
    descended reaches the leaf handler once, with the two keys in one path. *)
Lemma nested_path_single_leaf (leftOperand v : value) (x y : string)
    (handlePart : LeafHandler) (operator : Op) (leftDataType : option DataType) :
  isPlainObject v = false ->
  handleRecursiveNotOrAndNestedPathRecursive leftOperand (attr x (attr y v)) true
    handlePart operator [] leftDataType
  = handlePart (wrapJsonPath leftOperand [x; y]) None v leftDataType.
Proof.
  intros Hv. cbn [handleRecursiveNotOrAndNestedPathRecursive attr mapMS negb andb app].
  assert (Hleaf : handleRecursiveNotOrAndNestedPathRecursive leftOperand v true
                    handlePart operator [x; y] leftDataType
                  = handlePart (wrapJsonPath leftOperand [x; y]) None v leftDataType).
  { destruct v; try reflexivity. discriminate Hv. }
  rewrite Hleaf.
  destruct (handlePart (wrapJsonPath leftOperand [x; y]) None v leftDataType)
    as [[sql st]| |]; cbn; try reflexivity.
  now rewrite !joinWithLogicalOperator_single.
Qed.

(** C5.  Wrapping is associative: wrapping by [p] and then by [q] is wrapping
    by [p ++ q]; wrapping an operand that is already a JSON path yields one
    JSON path over the same base whose path is the concatenation, never a
    wrapper around a wrapper; and [{a: {x: {y: 1}}}] over an attribute [a]
    declared as JSON compiles to a single extraction of the path [x], [y] from
    [a], compared with 1. *)
Theorem wrapJsonPath_associative :
  (forall operand p q,
      wrapJsonPath (wrapJsonPath operand p) q = wrapJsonPath operand (p ++ q)%list)
  /\ (forall v path jsonPath,
         wrapJsonPath (VMethod (JsonPath v path)) jsonPath
         = VMethod (JsonPath v (path ++ jsonPath)%list))
  /\ (forall leftOperand x y handlePart operator leftDataType,
         handleRecursiveNotOrAndNestedPathRecursive leftOperand
           (attr x (attr y (VNum 1))) true handlePart operator [] leftDataType
         = handlePart (wrapJsonPath leftOperand [x; y]) None (VNum 1) leftDataType)
  /\ (forall fuel,
         whereItemsQuery sampleDialect (S (S fuel))
           (attr "a" (attr "x" (attr "y" (VNum 1))))
           {| model := Some jsonModel; bindParam := None;
              replacements := None; type := None |}
         = Ok "[a]->x->y = '1'").
Proof.
  split; [exact wrapJsonPath_app|].
  split; [exact wrapJsonPath_JsonPath|].
  split; [intros; now apply nested_path_single_leaf|].
  intros fuel. reflexivity.
Qed.

(* ------------------------------------------------------------------ *)
(** ** Malformed top-level input *)

(** C4.  A top-level value that is neither an array, nor a plain object, nor a
    SequelizeMethod makes the compilation throw, whatever the dialect, the
    options and the recursion budget: a string is rejected at once, any other
    such value by the top-level handler, whose error is rethrown wrapped.  No
    SQL is returned. *)
Theorem formatWhereOptions_rejects_scalars (dialect : Dialect) (fuel : nat)
    (where_ : value) (options : Options) :
  topLevelShape where_ = false ->
  whereItemsQuery dialect fuel where_ options
  = Throw (match where_ with
           | VStr _ => RawWhereStringRemoved
           | _ => InvalidWhereOption where_ (InvalidQueryExpectedObject where_)
           end)
  /\ forall sql, whereItemsQuery dialect fuel where_ options <> Ok sql.
Proof.
  intros Hshape.
  assert (H : whereItemsQuery dialect fuel where_ options
              = Throw (match where_ with
                       | VStr _ => RawWhereStringRemoved
                       | _ => InvalidWhereOption where_ (InvalidQueryExpectedObject where_)
                       end)).
  { destruct where_; try discriminate Hshape; reflexivity. }
  split; [exact H|]. intros sql. rewrite H. discriminate.
Qed.

Lemma formatWhereOptions_rejects_scalars_witness :
  whereItemsQuery sampleDialect 3 (VStr "a = 1") EMPTY_OBJECT
  = Throw RawWhereStringRemoved
  /\ forall sql,
       whereItemsQuery sampleDialect 3 (VStr "a = 1") EMPTY_OBJECT <> Ok sql.
Proof.
  apply (@formatWhereOptions_rejects_scalars sampleDialect 3 (VStr "a = 1")
           EMPTY_OBJECT).
  reflexivity.
Defined.

(* ------------------------------------------------------------------ *)
(** ** The escaper *)

(** C9.  Escaping [undefined] throws; escaping [null] returns [NULL] when no
    [bindParam] is given and the placeholder that [bindParam] returns for
    [null] when one is given.  This holds for every dialect, every type hint
    and every recursion budget. *)
Theorem escape_undefined_null (dialect : Dialect) (fuel : nat) (options : Options) :
  escapeValue dialect fuel VUndefined options = Throw UndefinedCannotBeEscaped
  /\ escapeValue dialect fuel VNull options
     = Ok (match bindParam options with
           | Some bind_ => bind_ VNull
           | None => "NULL"
           end).
Proof.
  split; unfold escapeValue, escape; [reflexivity|].
  destruct (bindParam options); reflexivity.
Qed.

(** C10 (as the code has it).  A plain object with the key [Op.col] is not
    escaped as data: whatever its other keys and whatever the type hint and
    [bindParam], [escape] formats the column reference built from the string
    under that key, which renders as [*] when the string begins with [*] and as
    the identifier quoted by [quote] otherwise. *)
Theorem escape_Op_col (dialect : Dialect) (fuel : nat)
    (strs : list (string * value)) (syms : list (Op * value)) (s : string)
    (options : Options) :
  getSym OpCol syms = Some (VStr s) ->
  escapeValue dialect (S fuel) (VObj strs syms) options
  = formatSequelizeMethod dialect (S fuel) (Col [VStr s]) options
  /\ escapeValue dialect (S fuel) (VObj strs syms) options
     = if startsWith s "*" then Ok "*"
       else quote dialect (VStr s) (model options) options.
Proof.
  intros Hcol. unfold escapeValue, escape. rewrite Hcol. split; reflexivity.
Qed.

Lemma escape_Op_col_witness :
  escapeValue sampleDialect 1 (VObj [("x", VNull)] [(OpCol, VStr "name")])
    (onlyType (Some JSON))
  = Ok "[name]".
Proof.
  apply (@escape_Op_col sampleDialect 0 [("x", VNull)] [(OpCol, VStr "name")]
           "name" (onlyType (Some JSON))).
  reflexivity.
Defined.

(** C10 as stated fails for a string that begins with [*]: the result is the
    bare [*], not the identifier that [quote] returns. *)
Lemma escape_Op_col_star_not_quoted :
  escapeValue sampleDialect 1 (oper OpCol (VStr "*")) EMPTY_OBJECT = Ok "*"
  /\ quote sampleDialect (VStr "*") (model EMPTY_OBJECT) EMPTY_OBJECT = Ok "[*]"
  /\ escapeValue sampleDialect 1 (oper OpCol (VStr "*")) EMPTY_OBJECT
     <> quote sampleDialect (VStr "*") (model EMPTY_OBJECT) EMPTY_OBJECT.
Proof.
  repeat split; discriminate.
Qed.

(* ------------------------------------------------------------------ *)
(** ** IN and NOT IN *)

Section OperatorMethods.

Variable dialect : Dialect.
Variable this_formatSequelizeMethod : method -> Options -> result string.

Lemma Op_in_empty (left_ : value) (leftDataType rightDataType : option DataType)
    (options : Options) :
  Op_in dialect this_formatSequelizeMethod left_ leftDataType OpIn (VArr [])
    rightDataType options
  = (leftSql <- escape dialect this_formatSequelizeMethod left_
                  (withType options (nullish leftDataType rightDataType)) ;;
     Ok (leftSql ++ " IN (NULL)")).
Proof. reflexivity. Qed.

Lemma Op_notIn_empty (left_ : value) (leftDataType rightDataType : option DataType)
    (options : Options) :
  Op_notIn dialect this_formatSequelizeMethod left_ leftDataType OpNotIn (VArr [])
    rightDataType options
  = Ok "".
Proof. reflexivity. Qed.

Lemma Op_in_requires_array_or_literal (left_ right_ : value)
    (leftDataType rightDataType : option DataType) (operator : Op)
    (options : Options) :
  isArray right_ = false -> isLiteral right_ = false ->
  Op_in dialect this_formatSequelizeMethod left_ leftDataType operator right_
    rightDataType options
  = Throw InRequiresArrayOrLiteral.
Proof.
  intros Harr Hlit.
  destruct right_ as [| | | | | | | m | |]; try discriminate Harr; try reflexivity.
  destruct m; try discriminate Hlit; reflexivity.
Qed.

(** The leaf handler on an explicit operator that is none of the shorthands
    and a right operand that is neither [null] nor an attribute. *)
Lemma handlePart_explicit (options : Options) (left_ right_ : value)
    (operator : Op) (leftDataType : option DataType) :
  operator <> OpCol -> operator <> OpAny -> operator <> OpAll ->
  right_ <> VNull -> (forall a, right_ <> VMethod (Attribute a)) ->
  exists leftDataType',
    instanceofARRAY leftDataType' = instanceofARRAY leftDataType
    /\ formatPojoWhere_handlePart dialect this_formatSequelizeMethod options
         left_ (Some operator) right_ leftDataType
       = (sql <- operatorMethod dialect this_formatSequelizeMethod operator left_
                   leftDataType' operator right_
                   (getOperandType dialect right_ (model options)) options ;;
          Ok (sql, leftDataType')).
Proof.
  intros Hcol Hany Hall Hnull Hattr.
  eexists. split; cycle 1.
  - unfold formatPojoWhere_handlePart.
    assert (Hres : forall t, resolveOperator t (Some operator) right_
                             = (operator, right_)).
    { intros t. unfold resolveOperator.
      destruct operator; try congruence; destruct right_; congruence. }
    rewrite Hres. cbn [fst snd].
    destruct right_ as [| | | | | | | m | |]; try reflexivity.
    destruct m; try reflexivity. now contradiction (Hattr attributeName).
  - destruct leftDataType; [reflexivity|].
    destruct left_ as [| | | | | | | m | |]; try reflexivity.
    destruct m; reflexivity.
Qed.

(** The leaf handler when no operator is given and the right operand is not
    an attribute. *)
Lemma handlePart_inferred (options : Options) (left_ right_ : value)
    (leftDataType : option DataType) :
  (forall a, right_ <> VMethod (Attribute a)) ->
  exists leftDataType',
    instanceofARRAY leftDataType' = instanceofARRAY leftDataType
    /\ formatPojoWhere_handlePart dialect this_formatSequelizeMethod options
         left_ None right_ leftDataType
       = (let operator := inferOperator leftDataType right_ in
          sql <- operatorMethod dialect this_formatSequelizeMethod operator left_
                   leftDataType' operator right_
                   (getOperandType dialect right_ (model options)) options ;;
          Ok (sql, leftDataType')).
Proof.
  intros Hattr.
  eexists. split; cycle 1.
  - unfold formatPojoWhere_handlePart.
    assert (Hres : forall t, instanceofARRAY t = instanceofARRAY leftDataType ->
                             resolveOperator t None right_
                             = (inferOperator leftDataType right_, right_)).
    { intros t Ht. unfold resolveOperator, inferOperator. rewrite Ht.
      destruct right_; reflexivity. }
    rewrite Hres.
    + cbn [fst snd].
      destruct right_ as [| | | | | | | m | |]; try reflexivity.
      destruct m; try reflexivity. now contradiction (Hattr attributeName).
    + destruct leftDataType; [reflexivity|].
      destruct left_ as [| | | | | | | m | |]; try reflexivity.
      destruct m; reflexivity.
  - destruct leftDataType; [reflexivity|].
    destruct left_ as [| | | | | | | m | |]; try reflexivity.
    destruct m; reflexivity.
Qed.

End OperatorMethods.

Lemma getOperandType_not_method (dialect : Dialect) (v : value)
    (mdl : option ModelStatic) :
  isSequelizeMethod v = false -> getOperandType dialect v mdl = None.
Proof.
  intros H. destruct mdl; destruct v; try reflexivity. discriminate H.
Qed.

(** C2.  For every left operand, [Op.in] applied to the empty array renders
    the left operand followed by [IN (NULL)]; [Op.notIn] applied to the empty
    array renders the empty string; and for a right operand that is neither an
    array nor a literal, both operators throw.  The two operators are handled
    by the same method, and [{a: {[Op.in]: []}}], [{a: {[Op.notIn]: []}}]
    compile to [[a] IN (NULL)] and to the empty string. *)
Theorem Op_in_contract (dialect : Dialect)
    (this_formatSequelizeMethod : method -> Options -> result string)
    (left_ : value) (leftDataType rightDataType : option DataType)
    (options : Options) :
  (forall leftSql,
      escape dialect this_formatSequelizeMethod left_
        (withType options (nullish leftDataType rightDataType)) = Ok leftSql ->
      Op_in dialect this_formatSequelizeMethod left_ leftDataType OpIn (VArr [])
        rightDataType options
      = Ok (leftSql ++ " IN (NULL)"))
  /\ Op_notIn dialect this_formatSequelizeMethod left_ leftDataType OpNotIn (VArr [])
       rightDataType options
     = Ok ""
  /\ (forall operator right_,
         isArray right_ = false -> isLiteral right_ = false ->
         Op_in dialect this_formatSequelizeMethod left_ leftDataType operator right_
           rightDataType options
         = Throw InRequiresArrayOrLiteral)
  /\ operatorMethod dialect this_formatSequelizeMethod OpIn
     = Op_in dialect this_formatSequelizeMethod
  /\ operatorMethod dialect this_formatSequelizeMethod OpNotIn
     = Op_in dialect this_formatSequelizeMethod
  /\ (forall fuel,
         whereItemsQuery sampleDialect (S fuel) (attr "a" (oper OpIn (VArr [])))
           EMPTY_OBJECT
         = Ok "[a] IN (NULL)")
  /\ (forall fuel,
         whereItemsQuery sampleDialect fuel (attr "a" (oper OpNotIn (VArr [])))
           EMPTY_OBJECT
         = Ok "").
Proof.
  split.
  { intros leftSql H. rewrite Op_in_empty, H. reflexivity. }
  split; [apply Op_notIn_empty|].
  split; [intros; now apply Op_in_requires_array_or_literal|].
  repeat split.
Qed.

Lemma Op_in_contract_witness :
  Op_in sampleDialect (formatSequelizeMethod sampleDialect 1)
    (VMethod (Attribute "a")) None OpIn (VArr []) None EMPTY_OBJECT
  = Ok ("[a]" ++ " IN (NULL)")
  /\ Op_in sampleDialect (formatSequelizeMethod sampleDialect 1)
       (VMethod (Attribute "a")) None OpNotIn (VNum 3) None EMPTY_OBJECT
     = Throw InRequiresArrayOrLiteral.
Proof.
  pose proof (@Op_in_contract sampleDialect (formatSequelizeMethod sampleDialect 1)
                (VMethod (Attribute "a")) None None EMPTY_OBJECT)
    as (Hin & _ & Hthrow & _).
  split.
  - apply Hin. reflexivity.
  - apply Hthrow; reflexivity.
Defined.

(* ------------------------------------------------------------------ *)
(** ** Comparisons with null and inferred operators *)

(** C3.  When the right operand of a leaf is [null]: a missing operator
    becomes [Op.is], [Op.eq] becomes [Op.is] and [Op.ne] becomes [Op.isNot];
    the leaf is then formatted as that binary operation against [null]; and
    [{a: null}], [{a: {[Op.ne]: null}}] compile to [[a] IS NULL] and
    [[a] IS NOT NULL]. *)
Theorem null_comparison_operator (leftDataType : option DataType) :
  resolveOperator leftDataType None VNull = (OpIs, VNull)
  /\ resolveOperator leftDataType (Some OpEq) VNull = (OpIs, VNull)
  /\ resolveOperator leftDataType (Some OpNe) VNull = (OpIsNot, VNull)
  /\ (forall dialect this_formatSequelizeMethod options left_ operator,
         In operator [None; Some OpEq; Some OpNe] ->
         exists leftDataType',
           formatPojoWhere_handlePart dialect this_formatSequelizeMethod options
             left_ operator VNull leftDataType
           = (sql <- formatBinaryOperation dialect this_formatSequelizeMethod
                       left_ leftDataType'
                       (match operator with Some OpNe => OpIsNot | _ => OpIs end)
                       VNull None options ;;
              Ok (sql, leftDataType')))
  /\ (forall fuel,
         whereItemsQuery sampleDialect (S fuel) (attr "a" VNull) EMPTY_OBJECT
         = Ok "[a] IS NULL")
  /\ (forall fuel,
         whereItemsQuery sampleDialect (S fuel) (attr "a" (oper OpNe VNull))
           EMPTY_OBJECT
         = Ok "[a] IS NOT NULL").
Proof.
  split; [reflexivity|]. split; [reflexivity|]. split; [reflexivity|].
  split; [|split; intros fuel; reflexivity].
  intros dialect fsm options left_ operator Hin. eexists.
  unfold formatPojoWhere_handlePart.
  assert (Hres : forall t, resolveOperator t operator VNull
                           = (match operator with Some OpNe => OpIsNot | _ => OpIs end,
                              VNull)).
  { intros t. destruct Hin as [<-|[<-|[<-|[]]]]; reflexivity. }
  rewrite Hres. cbn [fst snd bind].
  rewrite getOperandType_not_method by reflexivity.
  destruct Hin as [<-|[<-|[<-|[]]]]; reflexivity.
Qed.

Lemma null_comparison_operator_witness :
  exists leftDataType',
    formatPojoWhere_handlePart sampleDialect (formatSequelizeMethod sampleDialect 1)
      EMPTY_OBJECT (VMethod (Attribute "a")) (Some OpNe) VNull None
    = (sql <- formatBinaryOperation sampleDialect
                (formatSequelizeMethod sampleDialect 1) (VMethod (Attribute "a"))
                leftDataType' OpIsNot VNull None EMPTY_OBJECT ;;
       Ok (sql, leftDataType')).
Proof.
  apply (proj1 (proj2 (proj2 (proj2 (null_comparison_operator None))))
           sampleDialect (formatSequelizeMethod sampleDialect 1) EMPTY_OBJECT
           (VMethod (Attribute "a")) (Some OpNe)).
  simpl. right. right. left. reflexivity.
Defined.

(** C8.  When a leaf has no operator, the operator is [Op.in] if the right
    operand is an array and the type of the left operand is not an array type,
    [Op.is] if the right operand is [null], and [Op.eq] in every other case;
    the leaf is formatted by the method of that operator; and [{a: [1, 2, 3]}]
    compiles to [[a] IN (1, 2, 3)]. *)
Theorem inferred_operator (leftDataType : option DataType) (right_ : value) :
  (isArray right_ = true -> instanceofARRAY leftDataType = false ->
   inferOperator leftDataType right_ = OpIn)
  /\ (right_ = VNull -> inferOperator leftDataType right_ = OpIs)
  /\ (~ (isArray right_ = true /\ instanceofARRAY leftDataType = false) ->
      right_ <> VNull ->
      inferOperator leftDataType right_ = OpEq)
  /\ resolveOperator leftDataType None right_
     = (inferOperator leftDataType right_, right_)
  /\ (forall dialect this_formatSequelizeMethod options left_,
         (forall a, right_ <> VMethod (Attribute a)) ->
         exists leftDataType',
           instanceofARRAY leftDataType' = instanceofARRAY leftDataType
           /\ formatPojoWhere_handlePart dialect this_formatSequelizeMethod options
                left_ None right_ leftDataType
              = (let operator := inferOperator leftDataType right_ in
                 sql <- operatorMethod dialect this_formatSequelizeMethod operator
                          left_ leftDataType' operator right_
                          (getOperandType dialect right_ (model options)) options ;;
                 Ok (sql, leftDataType')))
  /\ (forall fuel,
         whereItemsQuery sampleDialect (S fuel)
           (attr "a" (VArr [VNum 1; VNum 2; VNum 3])) EMPTY_OBJECT
         = Ok "[a] IN (1, 2, 3)").
Proof.
  unfold inferOperator. repeat split.
  - intros -> ->. reflexivity.
  - intros ->. reflexivity.
  - intros Hno Hnull.
    destruct (isArray right_) eqn:Harr, (instanceofARRAY leftDataType) eqn:Hty;
      cbn [andb negb]; try (destruct right_; congruence).
    exfalso. apply Hno. now split.
  - unfold resolveOperator, inferOperator. destruct right_; reflexivity.
  - intros dialect fsm options left_ Hattr.
    apply handlePart_inferred. exact Hattr.
Qed.

Lemma inferred_operator_witness :
  inferOperator (Some TEXT) (VArr [VNum 1]) = OpIn
  /\ inferOperator (Some (ARRAY TEXT)) (VArr [VNum 1]) = OpEq
  /\ inferOperator None (VNum 1) = OpEq.
Proof.
  split; [|split].
  - apply (proj1 (inferred_operator (Some TEXT) (VArr [VNum 1]))); reflexivity.
  - apply (proj1 (proj2 (proj2 (inferred_operator (Some (ARRAY TEXT)) (VArr [VNum 1]))))).
    + intros [_ H]. discriminate H.
    + discriminate.
  - apply (proj1 (proj2 (proj2 (inferred_operator None (VNum 1))))).
    + intros [H _]. discriminate H.
    + discriminate.
Defined.

(* ------------------------------------------------------------------ *)
(** ** Termination *)

(** [formatLiteral] formats the literal itself, not the part, when it meets a
    part that is a SequelizeMethod; no recursion budget is enough for such a
    literal. *)
Lemma formatSequelizeMethod_Literal_OutOfFuel (dialect : Dialect)
    (val : list part) :
  hasMethodPart val = true ->
  forall fuel options,
    formatSequelizeMethod dialect fuel (Literal val) options = OutOfFuel.
Proof.
  intros Hpart. induction fuel as [|fuel IH]; intros options; [reflexivity|].
  cbn [formatSequelizeMethod formatSequelizeMethod_body]. unfold formatLiteral.
  rewrite mapM_OutOfFuel; [reflexivity | |].
  - intros [s|m] _; [right; now exists s | left; apply IH].
  - apply existsb_exists in Hpart. destruct Hpart as [[s|m] [Hin Hm]];
      [discriminate Hm|].
    exists (PMethod m). split; [exact Hin | apply IH].
Qed.

Section SubstringOperators.

Variable dialect : Dialect.
Variable this_formatSequelizeMethod : method -> Options -> result string.

Hypothesis literal_OutOfFuel :
  forall val options,
    hasMethodPart val = true ->
    this_formatSequelizeMethod (Literal val) options = OutOfFuel.

(** With a right operand that is not a string, [formatSubstring] does not
    complete once the left operand has been escaped. *)
Lemma formatSubstring_OutOfFuel (left_ right_ : value)
    (leftDataType rightDataType : option DataType) (operator : Op)
    (options : Options) (start end_ : bool) (leftSql : string) :
  (forall s, right_ <> VStr s) ->
  operator = OpLike \/ operator = OpNotLike ->
  escape dialect this_formatSequelizeMethod left_
    (withType options (nullish leftDataType rightDataType)) = Ok leftSql ->
  formatSubstring dialect this_formatSequelizeMethod left_ leftDataType operator
    right_ rightDataType options start end_
  = OutOfFuel.
Proof.
  intros Hstr Hop Hleft.
  assert (Hbin : forall val,
             hasMethodPart val = true ->
             formatBinaryOperation dialect this_formatSequelizeMethod left_
               leftDataType operator (VMethod (Literal val)) rightDataType options
             = OutOfFuel).
  { intros val Hval. unfold formatBinaryOperation.
    destruct Hop as [-> | ->]; cbn [operatorMap]; rewrite Hleft;
      cbn [bind formatOpAnyAll truthy escape];
      now rewrite literal_OutOfFuel. }
  unfold formatSubstring.
  destruct right_; try (apply Hbin; destruct start, end_; reflexivity).
  now contradiction (Hstr s).
Qed.

End SubstringOperators.

(** C1 fails on the code.  [{a: {[Op.startsWith]: 1}}] reaches
    [formatSubstring] with a right operand that is not a string; the literal
    built there contains a [Value] part, and formatting it never completes,
    whatever the recursion budget: the compilation neither returns SQL nor
    throws one of its errors. *)
Theorem startsWith_non_string_never_completes :
  forall fuel,
    whereItemsQuery sampleDialect fuel (attr "a" (oper OpStartsWith (VNum 1)))
      EMPTY_OBJECT
    = OutOfFuel.
Proof.
  intros [|fuel]; [reflexivity|].
  unfold whereItemsQuery, formatWhereOptions, attr, oper.
  cbn [handleRecursiveNotOrAndWithImplicitAndArray mapM bind].
  assert (Hleaf : formatPojoWhere sampleDialect
                    (formatSequelizeMethod sampleDialect (S fuel))
                    (PojoWhere_create (VMethod (Attribute "a"))
                       (VObj [] [(OpStartsWith, VNum 1)]))
                    EMPTY_OBJECT
                  = OutOfFuel).
  { unfold formatPojoWhere.
    cbn [leftOperand whereValue sampleDialect parseAttributeSyntax bind
         getOperandType model EMPTY_OBJECT
         handleRecursiveNotOrAndNestedPathRecursive length Nat.ltb Nat.leb
         negb andb mapMS snd fst wrapJsonPath].
    unfold formatPojoWhere_handlePart.
    cbn [resolveOperator fst snd bind getOperandType model EMPTY_OBJECT
         operatorMethod Op_startsWith].
    unfold Op_startsWith.
    rewrite formatSubstring_OutOfFuel with (leftSql := "[a]").
    - reflexivity.
    - intros val options Hval.
      now apply formatSequelizeMethod_Literal_OutOfFuel.
    - discriminate.
    - now left.
    - reflexivity. }
  rewrite Hleaf. reflexivity.
Qed.

(* ------------------------------------------------------------------ *)
(** ** Further properties of the joining helpers *)

Lemma filter_truthy_nil_iff (l : list string) :
  filter truthy l = [] <-> Forall (fun s => s = "") l.
Proof.
  induction l as [|a l IH]; simpl.
  - split; [constructor | reflexivity].
  - destruct a; simpl.
    + rewrite IH. split; [now constructor | intros H; now inversion H].
    + split; [discriminate | intros H; inversion H; discriminate].
Qed.

Lemma filter_truthy_head (l rest : list string) (a : string) :
  filter truthy l = a :: rest -> a <> "".
Proof.
  intros H. assert (Hin : In a (filter truthy l)) by (rewrite H; now left).
  apply filter_In in Hin. destruct Hin as [_ Ht]. now apply truthy_true_iff.
Qed.

(** X1.  A joined group is the empty string exactly when every fragment is
    empty, and an empty fragment anywhere in the list changes nothing. *)
Theorem joinWithLogicalOperator_empty_iff (sqlArray : list string) (operator : Op) :
  (joinWithLogicalOperator sqlArray operator = ""
   <-> Forall (fun sql => sql = "") sqlArray)
  /\ (forall before after_,
         sqlArray = (before ++ "" :: after_)%list ->
         joinWithLogicalOperator sqlArray operator
         = joinWithLogicalOperator (before ++ after_)%list operator).
Proof.
  split.
  - rewrite <- filter_truthy_nil_iff. unfold joinWithLogicalOperator.
    destruct (filter truthy sqlArray) as [|a [|b rest]] eqn:Hf.
    + split; reflexivity.
    + apply filter_truthy_head in Hf. split; [intros ->; now contradiction Hf | discriminate].
    + apply filter_truthy_head in Hf. split; [|discriminate].
      cbn [map String.concat]. intros H.
      destruct (testAndOr a); [discriminate H|].
      destruct a; [now contradiction Hf | discriminate H].
  - intros before after_ ->. unfold joinWithLogicalOperator.
    now rewrite !filter_app.
Qed.

Lemma joinWithLogicalOperator_empty_iff_witness :
  joinWithLogicalOperator ["a = 1"; ""; "b = 2"] OpOr
  = joinWithLogicalOperator ["a = 1"; "b = 2"] OpOr.
Proof.
  apply (proj2 (joinWithLogicalOperator_empty_iff ["a = 1"; ""; "b = 2"] OpOr)
           ["a = 1"] ["b = 2"]).
  reflexivity.
Defined.

(** X2.  The negation of a fragment is empty only for the empty fragment;
    otherwise it begins with [NOT ], so that negating it once more always adds
    a pair of parentheses around the first negation. *)
Theorem wrapWithNot_twice (sql : string) :
  (wrapWithNot sql = "" <-> sql = "")
  /\ (sql <> "" ->
      startsWith (wrapWithNot sql) "NOT " = true
      /\ wrapWithNot (wrapWithNot sql) = "NOT (" ++ wrapWithNot sql ++ ")").
Proof.
  assert (Hshape : sql <> "" -> exists rest, wrapWithNot sql = "NOT " ++ rest).
  { intros Hne. unfold wrapWithNot. apply truthy_true_iff in Hne. rewrite Hne.
    cbn [negb]. destruct (startsWith sql "(" && endsWith sql ")");
      eexists; reflexivity. }
  split.
  - split; [|intros ->; reflexivity].
    intros H. destruct sql as [|c s]; [reflexivity|].
    destruct Hshape as [rest Hr]; [discriminate|]. rewrite Hr in H. discriminate H.
  - intros Hne. destruct (Hshape Hne) as [rest Hr]. rewrite Hr.
    split; [now destruct rest | reflexivity].
Qed.

Lemma wrapWithNot_twice_witness :
  wrapWithNot (wrapWithNot "(a = 1 OR b = 2)") = "NOT (NOT (a = 1 OR b = 2))".
Proof.
  apply (proj2 (wrapWithNot_twice "(a = 1 OR b = 2)")). discriminate.
Defined.

(* ------------------------------------------------------------------ *)
(** ** Further properties of the top-level handler *)

Lemma bind_Ok_eta {A : Type} (r : result A) : (x <- r ;; Ok x) = r.
Proof. now destruct r. Qed.

Lemma mapM_undefined (handlePart : WherePart -> result string) (items : list value) :
  Forall (fun v => v = VUndefined) items ->
  mapM (fun part =>
          match part with
          | VUndefined => Ok ""
          | _ => handleRecursiveNotOrAndWithImplicitAndArray part handlePart OpAnd
          end) items
  = Ok (map (fun _ => "") items).
Proof.
  induction 1 as [|v items Hv _ IH]; [reflexivity|].
  subst v. cbn [mapM map]. rewrite IH. reflexivity.
Qed.

(** X3.  The empty array, an array of [undefined] elements only and the empty
    object compile to the empty string, whatever the dialect, the options and
    the recursion budget: nothing is formatted. *)
Theorem where_without_conditions (dialect : Dialect) (fuel : nat)
    (options : Options) (items : list value) :
  Forall (fun v => v = VUndefined) items ->
  whereItemsQuery dialect fuel (VArr items) options = Ok ""
  /\ whereItemsQuery dialect fuel (VObj [] []) options = Ok "".
Proof.
  intros Hitems. split; [|reflexivity].
  unfold whereItemsQuery, formatWhereOptions.
  cbn [handleRecursiveNotOrAndWithImplicitAndArray].
  rewrite mapM_undefined by exact Hitems. cbn [bind].
  assert (Hjoin : joinWithLogicalOperator (map (fun _ : value => "") items) OpAnd = "").
  { apply joinWithLogicalOperator_empty_iff.
    clear Hitems. induction items; constructor; [reflexivity | assumption]. }
  now rewrite Hjoin.
Qed.

Lemma where_without_conditions_witness :
  whereItemsQuery sampleDialect 0 (VArr [VUndefined; VUndefined]) EMPTY_OBJECT
  = Ok "".
Proof.
  apply (@where_without_conditions sampleDialect 0 EMPTY_OBJECT
           [VUndefined; VUndefined]).
  repeat constructor.
Defined.

(** X4.  Grouping a single condition changes nothing: an array of one
    element and an object whose only key is [Op.and] compile as the condition
    itself, [{[Op.or]: v}] compiles [v] with the connective [OR], and
    [{[Op.not]: v}] is the negation of what [v] compiles to.  The connective of
    the enclosing group plays no part. *)
Theorem single_condition_groups (v : value)
    (handlePart : WherePart -> result string) (logicalOperator : Op) :
  (v <> VUndefined ->
   handleRecursiveNotOrAndWithImplicitAndArray (VArr [v]) handlePart logicalOperator
   = handleRecursiveNotOrAndWithImplicitAndArray v handlePart OpAnd)
  /\ handleRecursiveNotOrAndWithImplicitAndArray (oper OpAnd v) handlePart
       logicalOperator
     = handleRecursiveNotOrAndWithImplicitAndArray v handlePart OpAnd
  /\ handleRecursiveNotOrAndWithImplicitAndArray (oper OpOr v) handlePart
       logicalOperator
     = handleRecursiveNotOrAndWithImplicitAndArray v handlePart OpOr
  /\ handleRecursiveNotOrAndWithImplicitAndArray (oper OpNot v) handlePart
       logicalOperator
     = (sql <- handleRecursiveNotOrAndWithImplicitAndArray v handlePart OpAnd ;;
        Ok (wrapWithNot sql)).
Proof.
  repeat split.
  - intros Hv. cbn [handleRecursiveNotOrAndWithImplicitAndArray mapM].
    match goal with
    | |- bind (bind ?m _) _ = _ =>
        assert (E : m = handleRecursiveNotOrAndWithImplicitAndArray v handlePart OpAnd)
          by (destruct v; try reflexivity; now contradiction Hv);
        rewrite E
    end.
    destruct (handleRecursiveNotOrAndWithImplicitAndArray v handlePart OpAnd);
      cbn [bind]; now rewrite ?joinWithLogicalOperator_single.
  - cbn [handleRecursiveNotOrAndWithImplicitAndArray oper mapM].
    destruct (handleRecursiveNotOrAndWithImplicitAndArray v handlePart OpAnd);
      cbn [bind app]; now rewrite ?joinWithLogicalOperator_single.
  - cbn [handleRecursiveNotOrAndWithImplicitAndArray oper mapM].
    destruct (handleRecursiveNotOrAndWithImplicitAndArray v handlePart OpOr);
      cbn [bind app]; now rewrite ?joinWithLogicalOperator_single.
  - cbn [handleRecursiveNotOrAndWithImplicitAndArray oper mapM].
    destruct (handleRecursiveNotOrAndWithImplicitAndArray v handlePart OpAnd);
      cbn [bind app]; now rewrite ?joinWithLogicalOperator_single.
Qed.

Lemma single_condition_groups_witness :
  handleRecursiveNotOrAndWithImplicitAndArray (VArr [VNum 1]) (fun _ => Ok "x") OpOr
  = handleRecursiveNotOrAndWithImplicitAndArray (VNum 1) (fun _ => Ok "x") OpAnd.
Proof.
  apply (proj1 (single_condition_groups (VNum 1) (fun _ => Ok "x") OpOr)).
  discriminate.
Defined.

(** X5.  At the top level an operator key other than [Op.and], [Op.or] and
    [Op.not] is rejected: an object without attribute names whose first
    operator key is such an operator makes the compilation throw the error
    that names it, whatever the value under the key and the keys after it. *)
Theorem top_level_operator_rejected (dialect : Dialect) (fuel : nat)
    (options : Options) (operator : Op) (v : value) (syms : list (Op * value)) :
  operator <> OpAnd -> operator <> OpOr -> operator <> OpNot ->
  let where_ := VObj [] ((operator, v) :: syms) in
  whereItemsQuery dialect fuel where_ options
  = Throw (InvalidWhereOption where_ (InvalidQuerySymbolOperator where_ operator)).
Proof.
  intros Hand Hor Hnot where_. unfold where_, whereItemsQuery, formatWhereOptions.
  cbn [handleRecursiveNotOrAndWithImplicitAndArray mapM].
  destruct operator; try reflexivity; congruence.
Qed.

Lemma top_level_operator_rejected_witness :
  whereItemsQuery sampleDialect 2 (VObj [] [(OpGt, VNum 2); (OpAnd, VArr [])])
    EMPTY_OBJECT
  = Throw (InvalidWhereOption (VObj [] [(OpGt, VNum 2); (OpAnd, VArr [])])
             (InvalidQuerySymbolOperator
                (VObj [] [(OpGt, VNum 2); (OpAnd, VArr [])]) OpGt)).
Proof.
  apply (@top_level_operator_rejected sampleDialect 2 EMPTY_OBJECT
           OpGt (VNum 2) [(OpAnd, VArr [])]); discriminate.
Defined.

(** X6.  Whatever goes wrong inside a compilation, the error that leaves
    [whereItemsQuery] is either the refusal of a raw string, and then the
    input is a string, or an error that carries the whole input and, as its
    cause, the error that was thrown inside. *)
Theorem where_errors_are_wrapped (dialect : Dialect) (fuel : nat)
    (where_ : value) (options : Options) (e : error) :
  whereItemsQuery dialect fuel where_ options = Throw e ->
  (e = RawWhereStringRemoved /\ exists s, where_ = VStr s)
  \/ (exists cause,
        e = InvalidWhereOption where_ cause
        /\ handleRecursiveNotOrAndWithImplicitAndArray where_
             (fun piece =>
                match piece with
                | PartMethod m => formatSequelizeMethod dialect fuel m options
                | PartPojoWhere p =>
                    formatPojoWhere dialect (formatSequelizeMethod dialect fuel) p
                      options
                end) OpAnd
           = Throw cause).
Proof.
  unfold whereItemsQuery, formatWhereOptions. intros H.
  destruct where_;
    try (match type of H with
         | match ?r with _ => _ end = _ =>
             destruct r as [sql|cause|] eqn:Hr; try discriminate H;
             injection H as <-; right; exists cause; now split
         end).
  injection H as <-. left. split; [reflexivity | now eexists].
Qed.

Lemma where_errors_are_wrapped_witness :
  (InvalidWhereOption (VNum 1) (InvalidQueryExpectedObject (VNum 1))
   = RawWhereStringRemoved /\ exists s, VNum 1 = VStr s)
  \/ (exists cause,
        InvalidWhereOption (VNum 1) (InvalidQueryExpectedObject (VNum 1))
        = InvalidWhereOption (VNum 1) cause
        /\ handleRecursiveNotOrAndWithImplicitAndArray (VNum 1)
             (fun piece =>
                match piece with
                | PartMethod m => formatSequelizeMethod sampleDialect 1 m EMPTY_OBJECT
                | PartPojoWhere p =>
                    formatPojoWhere sampleDialect
                      (formatSequelizeMethod sampleDialect 1) p EMPTY_OBJECT
                end) OpAnd
           = Throw cause).
Proof.
  apply (@where_errors_are_wrapped sampleDialect 1 (VNum 1) EMPTY_OBJECT).
  reflexivity.
Defined.

(* ------------------------------------------------------------------ *)
(** ** Further properties of the attribute-level handler *)

Lemma append_empty_r (s : string) : s ++ "" = s.
Proof. induction s; simpl; congruence. Qed.


(** X7.  An attribute paired with the empty object puts no constraint:
    [{a: {}}] compiles to the empty string for every attribute whose name
    parses, without any recursion budget, and the leaf handler is never
    called on an empty object. *)
Theorem empty_object_no_constraint (dialect : Dialect) (fuel : nat)
    (options : Options) (attributeName : string) (parsed : method) :
  parseAttributeSyntax dialect attributeName = Ok parsed ->
  whereItemsQuery dialect fuel (attr attributeName (VObj [] [])) options = Ok ""
  /\ forall leftOperand allowJsonPath handlePart operator parentJsonPath leftDataType,
       handleRecursiveNotOrAndNestedPathRecursive leftOperand (VObj [] [])
         allowJsonPath handlePart operator parentJsonPath leftDataType
       = Ok ("", leftDataType).
Proof.
  intros Hparse.
  assert (H : forall leftOperand allowJsonPath handlePart operator parentJsonPath
                     leftDataType,
             handleRecursiveNotOrAndNestedPathRecursive leftOperand (VObj [] [])
               allowJsonPath handlePart operator parentJsonPath leftDataType
             = Ok ("", leftDataType)).
  { intros. cbn. now rewrite andb_false_r. }
  split; [|exact H].
  unfold whereItemsQuery, formatWhereOptions, attr.
  cbn [handleRecursiveNotOrAndWithImplicitAndArray mapM bind].
  unfold formatPojoWhere. cbn [leftOperand whereValue]. rewrite Hparse.
  cbn [bind]. rewrite H. reflexivity.
Qed.

Lemma empty_object_no_constraint_witness :
  whereItemsQuery sampleDialect 0 (attr "a" (VObj [] [])) EMPTY_OBJECT = Ok "".
Proof.
  apply (@empty_object_no_constraint sampleDialect 0 EMPTY_OBJECT "a" (Attribute "a")).
  reflexivity.
Defined.



(** X9.  The shorthands of a leaf: the operator [Op.any] (or [Op.all]) with
    the operand [r] is the equality with the operand [{[Op.any]: r}] (or
    [{[Op.all]: r}]), and the operator [Op.col] with the operand [r] is the
    equality with the column reference [Col(r)]. *)
Theorem leaf_shorthands (dialect : Dialect)
    (this_formatSequelizeMethod : method -> Options -> result string)
    (options : Options) (left_ r : value) (leftDataType : option DataType) :
  formatPojoWhere_handlePart dialect this_formatSequelizeMethod options left_
    (Some OpAny) r leftDataType
  = formatPojoWhere_handlePart dialect this_formatSequelizeMethod options left_
      (Some OpEq) (oper OpAny r) leftDataType
  /\ formatPojoWhere_handlePart dialect this_formatSequelizeMethod options left_
       (Some OpAll) r leftDataType
     = formatPojoWhere_handlePart dialect this_formatSequelizeMethod options left_
         (Some OpEq) (oper OpAll r) leftDataType
  /\ formatPojoWhere_handlePart dialect this_formatSequelizeMethod options left_
       (Some OpCol) r leftDataType
     = formatPojoWhere_handlePart dialect this_formatSequelizeMethod options left_
         (Some OpEq) (VMethod (Col [r])) leftDataType.
Proof. repeat split. Qed.

(** X10.  On a string the six substring operators are [LIKE] and [NOT LIKE]
    comparisons with the string between [%] marks: after it for
    "starts with", before it for "ends with", on both sides for "substring".
    The string itself is passed on unchanged. *)
Theorem substring_operators_on_strings (dialect : Dialect)
    (this_formatSequelizeMethod : method -> Options -> result string)
    (options : Options) (left_ : value) (s : string)
    (leftDataType : option DataType) :
  let leaf operator right_ :=
    formatPojoWhere_handlePart dialect this_formatSequelizeMethod options left_
      (Some operator) (VStr right_) leftDataType in
  leaf OpStartsWith s = leaf OpLike (s ++ "%")
  /\ leaf OpNotStartsWith s = leaf OpNotLike (s ++ "%")
  /\ leaf OpEndsWith s = leaf OpLike ("%" ++ s)
  /\ leaf OpNotEndsWith s = leaf OpNotLike ("%" ++ s)
  /\ leaf OpSubstring s = leaf OpLike ("%" ++ s ++ "%")
  /\ leaf OpNotSubstring s = leaf OpNotLike ("%" ++ s ++ "%").
Proof.
  cbv zeta. unfold formatPojoWhere_handlePart.
  cbn [resolveOperator fst snd bind operatorMethod].
  unfold Op_startsWith, Op_notStartsWith, Op_endsWith, Op_notEndsWith,
    Op_substring, Op_notSubstring, formatSubstring.
  rewrite !append_empty_r. repeat split.
Qed.

(* ------------------------------------------------------------------ *)
(** ** Further properties of the operator methods *)

Section OperatorContracts.

Variable dialect : Dialect.
Variable this_formatSequelizeMethod : method -> Options -> result string.

(** X11.  [Op.is] and [Op.isNot] accept [null], a boolean or a literal as
    right operand, which they hand to the generic binary operation; with any
    other right operand they throw, and nothing is escaped. *)
Theorem Op_is_contract (left_ right_ : value)
    (leftDataType rightDataType : option DataType) (operator : Op)
    (options : Options) :
  operatorMethod dialect this_formatSequelizeMethod OpIs
  = Op_is dialect this_formatSequelizeMethod
  /\ operatorMethod dialect this_formatSequelizeMethod OpIsNot
     = Op_is dialect this_formatSequelizeMethod
  /\ (right_ = VNull \/ (exists b, right_ = VBool b) \/ isLiteral right_ = true ->
      Op_is dialect this_formatSequelizeMethod left_ leftDataType operator right_
        rightDataType options
      = formatBinaryOperation dialect this_formatSequelizeMethod left_ leftDataType
          operator right_ rightDataType options)
  /\ (right_ <> VNull -> (forall b, right_ <> VBool b) -> isLiteral right_ = false ->
      Op_is dialect this_formatSequelizeMethod left_ leftDataType operator right_
        rightDataType options
      = Throw IsRequiresNullBooleanOrLiteral).
Proof.
  split; [reflexivity|]. split; [reflexivity|]. split.
  - intros [-> | [[b ->] | Hlit]]; try reflexivity.
    destruct right_ as [| | | | | | | m | |]; try discriminate Hlit.
    destruct m; try discriminate Hlit. reflexivity.
  - intros Hnull Hbool Hlit.
    destruct right_ as [| | | | | | | m | |]; try reflexivity.
    + now contradiction Hnull.
    + now contradiction (Hbool b).
    + destruct m; try reflexivity. discriminate Hlit.
Qed.

(** X12.  [Op.between] and [Op.notBetween] escape the left operand first.  If
    that succeeds, an array of exactly two values renders
    [left BETWEEN low AND high] (or [NOT BETWEEN]) once both values are
    escaped, and a right operand that is neither a SequelizeMethod nor an
    array of two elements throws. *)
Theorem Op_between_contract (left_ : value)
    (leftDataType rightDataType : option DataType) (operator : Op)
    (options : Options) (leftSql : string) :
  escape dialect this_formatSequelizeMethod left_
    (withType options (nullish leftDataType rightDataType)) = Ok leftSql ->
  (forall low high lowSql highSql,
      escape dialect this_formatSequelizeMethod low
        (withType options (nullish rightDataType leftDataType)) = Ok lowSql ->
      escape dialect this_formatSequelizeMethod high
        (withType options (nullish rightDataType leftDataType)) = Ok highSql ->
      Op_between dialect this_formatSequelizeMethod left_ leftDataType operator
        (VArr [low; high]) rightDataType options
      = Ok (leftSql ++ " " ++ operatorText operator ++ " "
              ++ lowSql ++ " AND " ++ highSql))
  /\ (forall right_,
         isSequelizeMethod right_ = false ->
         (forall items, right_ = VArr items -> length items <> 2) ->
         Op_between dialect this_formatSequelizeMethod left_ leftDataType operator
           right_ rightDataType options
         = Throw BetweenRequiresPairOrLiteral).
Proof.
  intros Hleft. split.
  - intros low high lowSql highSql Hlow Hhigh. unfold Op_between.
    rewrite Hleft. cbn [bind]. rewrite Hlow. cbn [bind]. rewrite Hhigh. reflexivity.
  - intros right_ Hmethod Hlen. unfold Op_between. rewrite Hleft. cbn [bind].
    destruct right_ as [| | | | | items | | m | |]; try reflexivity;
      try discriminate Hmethod.
    destruct items as [|a [|b [|c rest]]]; try reflexivity.
    now contradiction (Hlen [a; b] eq_refl).
Qed.

(** X13.  An operator tag that has no SQL text is refused by the generic
    binary operation before either operand is escaped; the tags concerned are
    the logical ones, [Op.col], [Op.values] and the six substring operators. *)
Theorem operator_without_sql_text (left_ right_ : value)
    (leftDataType rightDataType : option DataType) (operator : Op)
    (options : Options) :
  (operatorMap operator = None
   <-> In operator [OpAnd; OpOr; OpNot; OpCol; OpValues; OpStartsWith;
                    OpNotStartsWith; OpEndsWith; OpNotEndsWith; OpSubstring;
                    OpNotSubstring])
  /\ (operatorMap operator = None ->
      formatBinaryOperation dialect this_formatSequelizeMethod left_ leftDataType
        operator right_ rightDataType options
      = Throw (OperatorNotSupported operator)).
Proof.
  split.
  - destruct operator; cbn; split; intros H; try discriminate H; try reflexivity;
      intuition discriminate.
  - intros H. unfold formatBinaryOperation. now rewrite H.
Qed.

(** X14.  A right operand that is a plain object with the key [Op.any] is not
    escaped as a value: the comparison renders [left operator ANY (values)],
    where the values are those under the key; under [Op.values] a value that
    is not an array counts as a list of one. *)
Theorem quantified_comparison (left_ : value)
    (leftDataType rightDataType : option DataType) (operator : Op)
    (options : Options) (strs : list (string * value)) (syms : list (Op * value))
    (x : value) (leftSql valuesSql text : string) :
  operatorMap operator = Some text -> text <> "" ->
  getSym OpAny syms = Some x ->
  escape dialect this_formatSequelizeMethod left_
    (withType options (nullish leftDataType rightDataType)) = Ok leftSql ->
  formatOpValues dialect this_formatSequelizeMethod x
    (nullish rightDataType leftDataType) = Ok valuesSql ->
  formatBinaryOperation dialect this_formatSequelizeMethod left_ leftDataType
    operator (VObj strs syms) rightDataType options
  = Ok (wrapAmbiguousWhere left_ leftSql ++ " " ++ text
          ++ " ANY (" ++ valuesSql ++ ")")
  /\ forall v t,
       isArray v = false ->
       formatOpValues dialect this_formatSequelizeMethod (oper OpValues v) t
       = formatOpValues dialect this_formatSequelizeMethod
           (oper OpValues (VArr [v])) t.
Proof.
  intros Htext Hne Hany Hleft Hvalues. split.
  - unfold formatBinaryOperation, operatorText. rewrite Htext.
    destruct text as [|c text]; [now contradiction Hne|].
    rewrite Hleft. cbn [bind formatOpAnyAll]. rewrite Hany, Hvalues.
    reflexivity.
  - intros v t Hv. destruct v; try reflexivity. discriminate Hv.
Qed.

(** X15.  A type hint that is a string (the name of an SQL type) is ignored
    by the escaper: a value that is escaped as data, that is, neither a
    SequelizeMethod nor a plain object with the key [Op.col], is escaped as if
    no type had been given. *)
Theorem escape_ignores_string_type (v : value) (options : Options) (name : string) :
  isSequelizeMethod v = false ->
  (forall strs syms, v = VObj strs syms -> getSym OpCol syms = None) ->
  escape dialect this_formatSequelizeMethod v
    (withType options (Some (SqlTypeName name)))
  = escape dialect this_formatSequelizeMethod v (withType options None).
Proof.
  intros Hmethod Hcol. destruct v; try reflexivity; try discriminate Hmethod.
  unfold escape. now rewrite (Hcol strs syms eq_refl).
Qed.

End OperatorContracts.

Lemma escape_ignores_string_type_witness :
  escape sampleDialect (formatSequelizeMethod sampleDialect 0) (VNum 7)
    (withType EMPTY_OBJECT (Some (SqlTypeName "json")))
  = escape sampleDialect (formatSequelizeMethod sampleDialect 0) (VNum 7)
      (withType EMPTY_OBJECT None).
Proof.
  apply escape_ignores_string_type; [reflexivity | discriminate].
Defined.

Lemma Op_is_contract_witness :
  Op_is sampleDialect (formatSequelizeMethod sampleDialect 1)
    (VMethod (Attribute "a")) None OpIs (VNum 1) None EMPTY_OBJECT
  = Throw IsRequiresNullBooleanOrLiteral.
Proof.
  apply (proj2 (proj2 (proj2
           (@Op_is_contract sampleDialect (formatSequelizeMethod sampleDialect 1)
              (VMethod (Attribute "a")) (VNum 1) None None OpIs EMPTY_OBJECT))));
    [discriminate | discriminate | reflexivity].
Defined.

Lemma Op_between_contract_witness :
  Op_between sampleDialect (formatSequelizeMethod sampleDialect 1)
    (VMethod (Attribute "a")) None OpBetween (VArr [VNum 1; VNum 9]) None
    EMPTY_OBJECT
  = Ok "[a] BETWEEN 1 AND 9"
  /\ Op_between sampleDialect (formatSequelizeMethod sampleDialect 1)
       (VMethod (Attribute "a")) None OpNotBetween (VArr [VNum 1]) None
       EMPTY_OBJECT
     = Throw BetweenRequiresPairOrLiteral.
Proof.
  split.
  - apply (proj1 (@Op_between_contract sampleDialect
                    (formatSequelizeMethod sampleDialect 1)
                    (VMethod (Attribute "a")) None None OpBetween EMPTY_OBJECT
                    "[a]" eq_refl) (VNum 1) (VNum 9) "1" "9"); reflexivity.
  - apply (proj2 (@Op_between_contract sampleDialect
                    (formatSequelizeMethod sampleDialect 1)
                    (VMethod (Attribute "a")) None None OpNotBetween EMPTY_OBJECT
                    "[a]" eq_refl)); [reflexivity|].
    intros items H. injection H as <-. discriminate.
Defined.

Lemma operator_without_sql_text_witness :
  formatBinaryOperation sampleDialect (formatSequelizeMethod sampleDialect 1)
    (VMethod (Attribute "a")) None OpValues (VNum 1) None EMPTY_OBJECT
  = Throw (OperatorNotSupported OpValues).
Proof.
  apply (proj2 (@operator_without_sql_text sampleDialect
                  (formatSequelizeMethod sampleDialect 1)
                  (VMethod (Attribute "a")) (VNum 1) None None OpValues
                  EMPTY_OBJECT)).
  reflexivity.
Defined.

Lemma quantified_comparison_witness :
  formatBinaryOperation sampleDialect (formatSequelizeMethod sampleDialect 1)
    (VMethod (Attribute "a")) None OpGt
    (oper OpAny (oper OpValues (VArr [VNum 1; VNum 2]))) None EMPTY_OBJECT
  = Ok ("[a]" ++ " " ++ ">" ++ " ANY (" ++ "VALUES (1), (2)" ++ ")").
Proof.
  apply (proj1 (@quantified_comparison sampleDialect
                  (formatSequelizeMethod sampleDialect 1)
                  (VMethod (Attribute "a")) None None OpGt EMPTY_OBJECT []
                  [(OpAny, oper OpValues (VArr [VNum 1; VNum 2]))]
                  (oper OpValues (VArr [VNum 1; VNum 2])) "[a]"
                  "VALUES (1), (2)" ">" eq_refl
                  ltac:(discriminate) eq_refl eq_refl eq_refl)).
Defined.

(* ------------------------------------------------------------------ *)
(** ** Further properties of the operand formatters *)

Lemma mapM_Ok_iff {A B : Type} (f : A -> result B) (l : list A) (ys : list B) :
  mapM f l = Ok ys <-> Forall2 (fun x y => f x = Ok y) l ys.
Proof.
  revert ys. induction l as [|a l IH]; intros ys; cbn [mapM].
  - split; [intros H; injection H as <-; constructor | intros H; now inversion H].
  - split.
    + destruct (f a) as [y| |] eqn:Ha; cbn [bind]; try discriminate.
      destruct (mapM f l) as [zs| |] eqn:Hl; cbn [bind]; try discriminate.
      intros H. injection H as <-. constructor; [exact Ha | now apply IH].
    + intros H. inversion H as [|x y l' ys' Hxy Hrest]; subst.
      rewrite Hxy. cbn [bind]. apply IH in Hrest. rewrite Hrest. reflexivity.
Qed.

(** X16.  A list is escaped exactly when each of its values is escaped, each
    value on its own and with the same options; the result is then the escaped
    values in order, separated by a comma and a space, between parentheses. *)
Theorem escapeList_iff (dialect : Dialect)
    (this_formatSequelizeMethod : method -> Options -> result string)
    (values : list value) (options : Options) (sql : string) :
  escapeList dialect this_formatSequelizeMethod values options = Ok sql
  <-> exists escaped,
        Forall2 (fun v s => escape dialect this_formatSequelizeMethod v options = Ok s)
          values escaped
        /\ sql = "(" ++ String.concat ", " escaped ++ ")".
Proof.
  unfold escapeList. split.
  - destruct (mapM _ values) as [escaped| |] eqn:H; cbn [bind]; try discriminate.
    intros Heq. injection Heq as <-. exists escaped.
    split; [now apply mapM_Ok_iff | reflexivity].
  - intros (escaped & H & ->). apply mapM_Ok_iff in H. now rewrite H.
Qed.

(** X17.  A literal whose parts are all strings renders as the concatenation
    of those strings, character for character, for every dialect, type hint
    and [bindParam], provided no replacements are given. *)
Theorem literal_of_strings_verbatim (dialect : Dialect) (fuel : nat)
    (strings : list string) (options : Options) :
  replacements options = None ->
  formatSequelizeMethod dialect (S fuel) (Literal (map PStr strings)) options
  = Ok (String.concat "" strings).
Proof.
  intros Hnone. cbn [formatSequelizeMethod formatSequelizeMethod_body].
  unfold formatLiteral.
  assert (H : forall f,
             mapM (fun part => match part with
                               | PMethod _ => f
                               | PStr s => Ok s
                               end) (map PStr strings)
             = Ok strings).
  { intros f. induction strings as [|s l IH]; [reflexivity|].
    cbn [map mapM bind]. now rewrite IH. }
  rewrite H. cbn [bind]. now rewrite Hnone.
Qed.

Lemma literal_of_strings_verbatim_witness :
  formatSequelizeMethod sampleDialect 1
    (Literal (map PStr ["a = "; "'x'"])) (onlyType (Some JSON))
  = Ok (String.concat "" ["a = "; "'x'"]).
Proof.
  apply literal_of_strings_verbatim. reflexivity.
Defined.

(** X18.  In the abstract generator, where no dialect supplies the JSON
    extraction, a JSON path with an empty path renders as its base operand
    alone, and a JSON path with at least one segment throws once its base is
    escaped: that JSON operations are not supported if the dialect says so,
    that the extraction is not implemented otherwise. *)
Theorem formatJsonPath_abstract (dialect : Dialect)
    (this_formatSequelizeMethod : method -> Options -> result string)
    (v : value) (options : Options) (sql : string) :
  escape dialect this_formatSequelizeMethod v options = Ok sql ->
  formatJsonPath dialect this_formatSequelizeMethod v [] options = Ok sql
  /\ (jsonPathExtractionQuery2_override dialect = None ->
      forall segment path,
        formatJsonPath dialect this_formatSequelizeMethod v (segment :: path) options
        = Throw (if supports_jsonOperations dialect
                 then JsonPathExtractionNotImplemented
                 else JsonOperationsNotSupported)).
Proof.
  intros Hv. unfold formatJsonPath. rewrite Hv. split; [reflexivity|].
  intros Hnone segment path. cbn [bind]. unfold jsonPathExtractionQuery2.
  rewrite Hnone. now destruct (supports_jsonOperations dialect).
Qed.

Lemma formatJsonPath_abstract_witness :
  formatJsonPath sampleDialect (formatSequelizeMethod sampleDialect 1)
    (VMethod (Attribute "a")) [] EMPTY_OBJECT
  = Ok "[a]".
Proof.
  apply (proj1 (@formatJsonPath_abstract sampleDialect
                  (formatSequelizeMethod sampleDialect 1)
                  (VMethod (Attribute "a")) EMPTY_OBJECT "[a]" eq_refl)).
Defined.

(* ------------------------------------------------------------------ *)
(** ** The object pool *)

Lemma assignAt_length {T : Type} (items : list T) (index : nat) (val : T) :
  length (assignAt items index val) = length items.
Proof.
  revert index. induction items as [|x items IH]; intros [|i]; simpl; auto.
Qed.

Lemma assignAt_nth_error {T : Type} (items : list T) (index : nat) (val : T) :
  (index < length items)%nat ->
  nth_error (assignAt items index val) index = Some val.
Proof.
  revert index. induction items as [|x items IH]; intros [|i] H; simpl in *;
    try lia; [reflexivity | apply IH; lia].
Qed.

Lemma assignAt_same {T : Type} (items : list T) (index : nat) (val : T) :
  nth_error items index = Some val -> assignAt items index val = items.
Proof.
  revert index. induction items as [|x items IH]; intros [|i] H; simpl in *;
    try discriminate; [now injection H as -> | now rewrite IH].
Qed.

(** X19.  The pool keeps its invariant: a new pool has it, and [getObject]
    and [free] preserve it; under the invariant [getObject] always returns an
    object, never [undefined], and the array of the pool never shrinks. *)
Theorem pool_invariant {T : Type} (pool : ObjectPool T) (val : T)
    (initialSize : nat) :
  poolInvariant (ObjectPool_new val initialSize)
  /\ (poolInvariant pool ->
      poolInvariant (snd (getObject pool))
      /\ poolInvariant (free pool val)
      /\ fst (getObject pool) <> None
      /\ (length (freeItems pool) <= length (freeItems (free pool val)))%nat
      /\ length (freeItems (snd (getObject pool))) = length (freeItems pool)).
Proof.
  split.
  - unfold poolInvariant, ObjectPool_new. cbn. rewrite repeat_length. lia.
  - unfold poolInvariant, getObject, free. intros Hinv.
    destruct (Z.ltb_spec (lastOccupiedIndex pool) 0) as [Hneg|Hpos];
      destruct (Z.geb_spec (lastOccupiedIndex pool)
                  (Z.of_nat (length (freeItems pool)) - 1)) as [Hfull|Hroom];
      cbn [fst snd freeItems lastOccupiedIndex];
      unfold assignIndex;
      repeat match goal with
             | |- context [(?a <? 0)%Z] => destruct (Z.ltb_spec a 0); try lia
             end;
      rewrite ?length_app, ?assignAt_length; cbn [length];
      repeat split; try lia; try discriminate;
      apply nth_error_Some; lia.
Qed.

Lemma pool_invariant_witness :
  poolInvariant (snd (getObject pojoWherePool))
  /\ poolInvariant (free pojoWherePool (PojoWhere_create VNull VNull))
  /\ fst (getObject pojoWherePool) <> None.
Proof.
  destruct (proj2 (@pool_invariant _ pojoWherePool (PojoWhere_create VNull VNull) 0))
    as (H1 & H2 & H3 & _).
  - unfold poolInvariant. cbn. lia.
  - exact (conj H1 (conj H2 H3)).
Defined.

(** X20.  Taking an object from a pool that has a free one and giving it back
    leaves the pool exactly as it was. *)
Theorem pool_get_then_free {T : Type} (pool : ObjectPool T) (x : T) :
  poolInvariant pool ->
  (0 <= lastOccupiedIndex pool)%Z ->
  fst (getObject pool) = Some x ->
  free (snd (getObject pool)) x = pool.
Proof.
  unfold poolInvariant, getObject, free. intros Hinv Hpos.
  destruct (Z.ltb_spec (lastOccupiedIndex pool) 0) as [Hneg|_]; [lia|].
  cbn [fst snd freeItems lastOccupiedIndex factory]. intros Hx.
  destruct (Z.geb_spec (lastOccupiedIndex pool - 1)
              (Z.of_nat (length (freeItems pool)) - 1)) as [Hfull|_]; [lia|].
  unfold assignIndex.
  destruct (Z.ltb_spec (lastOccupiedIndex pool - 1 + 1) 0) as [Hneg|_]; [lia|].
  replace (lastOccupiedIndex pool - 1 + 1)%Z with (lastOccupiedIndex pool) by lia.
  rewrite assignAt_same by exact Hx. now destruct pool.
Qed.

Lemma pool_get_then_free_witness :
  free (snd (getObject pojoWherePool)) (PojoWhere_create VUndefined VUndefined)
  = pojoWherePool.
Proof.
  apply pool_get_then_free.
  - unfold poolInvariant. cbn. lia.
  - cbn. lia.
  - reflexivity.
Defined.

(** X21.  An object given to a pool that is not full is the next object the
    pool hands out, and the pool is then as many objects short as before; an
    object given to a full pool is appended to the array but is not the next
    one handed out. *)
Theorem pool_free_then_get {T : Type} (pool : ObjectPool T) (val : T) :
  poolInvariant pool ->
  ((lastOccupiedIndex pool < Z.of_nat (length (freeItems pool)) - 1)%Z ->
   fst (getObject (free pool val)) = Some val
   /\ lastOccupiedIndex (snd (getObject (free pool val))) = lastOccupiedIndex pool)
  /\ (lastOccupiedIndex pool = (Z.of_nat (length (freeItems pool)) - 1)%Z ->
      fst (getObject (free pool val)) = fst (getObject pool)
      /\ freeItems (free pool val) = (freeItems pool ++ [val])%list).
Proof.
  unfold poolInvariant, getObject, free. intros Hinv. split.
  - intros Hroom.
    destruct (Z.geb_spec (lastOccupiedIndex pool)
                (Z.of_nat (length (freeItems pool)) - 1)) as [Hfull|_]; [lia|].
    cbn [fst snd freeItems lastOccupiedIndex factory].
    destruct (Z.ltb_spec (lastOccupiedIndex pool + 1) 0) as [Hneg|_]; [lia|].
    cbn [fst snd lastOccupiedIndex]. split; [|lia].
    unfold assignIndex.
    destruct (Z.ltb_spec (lastOccupiedIndex pool + 1) 0) as [Hneg|_]; [lia|].
    apply assignAt_nth_error. lia.
  - intros Hfull.
    destruct (Z.geb_spec (lastOccupiedIndex pool)
                (Z.of_nat (length (freeItems pool)) - 1)) as [_|Hroom]; [|lia].
    cbn [fst snd freeItems lastOccupiedIndex factory]. split; [|reflexivity].
    destruct (Z.ltb_spec (lastOccupiedIndex pool) 0) as [Hneg|Hpos];
      [reflexivity|]. cbn [fst].
    apply nth_error_app1. lia.
Qed.

Lemma pool_free_then_get_witness :
  fst (getObject (free (snd (getObject pojoWherePool))
                    (PojoWhere_create VNull VNull)))
  = Some (PojoWhere_create VNull VNull).
Proof.
  apply (proj1 (@pool_free_then_get _ (snd (getObject pojoWherePool))
                  (PojoWhere_create VNull VNull)
                  ltac:(unfold poolInvariant; cbn; lia))).
  cbn. lia.
Defined.

(* ------------------------------------------------------------------ *)
(** ** Table names *)

Lemma orElse_falsy (a : option string) (b : string) :
  truthy (orElse a b) = false -> orElse a b = b.
Proof.
  unfold orElse. destruct a as [s|]; [|reflexivity].
  destruct (truthy s) eqn:Hs; [congruence | reflexivity].
Qed.

Lemma orElse_truthy (a : option string) (b : string) :
  truthy b = true -> truthy (orElse a b) = true.
Proof.
  unfold orElse. intros Hb. destruct a as [s|]; [|exact Hb].
  destruct (truthy s) eqn:Hs; assumption.
Qed.

Lemma orElse_Some_self (s b : string) :
  (truthy s = false -> s = b) -> orElse (Some s) b = s.
Proof.
  unfold orElse. intros H. destruct (truthy s); [reflexivity | symmetry; now apply H].
Qed.

Lemma orElse_chain_falsy (a b : option string) (c : string) :
  truthy (orElse a (orElse b c)) = false -> orElse a (orElse b c) = c.
Proof.
  intros H. pose proof (orElse_falsy _ _ H) as E. rewrite E in H |- *.
  now apply orElse_falsy.
Qed.

Section TableNameProperties.

Variable dialect : Dialect.
Variable settings : SchemaSettings.

(** X22.  The details extracted from a table are in normal form: extracting
    the details of the result, with no options, gives the result again. *)
Theorem extractTableDetails_idempotent (table : TableNameOrModel)
    (optionsSchema optionsDelimiter : option string)
    (details : TableNameWithSchema) :
  extractTableDetails settings table optionsSchema optionsDelimiter = inr details ->
  extractTableDetails settings (TableObject details) None None = inr details.
Proof.
  assert (Hnormal : forall t,
             extractTableDetails settings
               (TableObject
                  {| tableName := tableName t;
                     schema :=
                       Some (orElse optionsSchema
                               (orElse (schema t)
                                  (orElse (options_schema settings)
                                     (getDefaultSchema settings))));
                     delimiter :=
                       Some (orElse optionsDelimiter (orElse (delimiter t) "."));
                     otherKeys := otherKeys t |}) None None
             = inr {| tableName := tableName t;
                      schema :=
                        Some (orElse optionsSchema
                                (orElse (schema t)
                                   (orElse (options_schema settings)
                                      (getDefaultSchema settings))));
                      delimiter :=
                        Some (orElse optionsDelimiter (orElse (delimiter t) "."));
                      otherKeys := otherKeys t |}).
  { intros t. unfold extractTableDetails.
    cbn [tableName schema delimiter otherKeys].
    change (orElse None ?x) with x.
    rewrite !orElse_Some_self; [reflexivity | |].
    - intros Hf.
      assert (Ht : truthy (orElse optionsDelimiter (orElse (delimiter t) ".")) = true)
        by (repeat apply orElse_truthy; reflexivity).
      congruence.
    - intros Hf. now apply orElse_chain_falsy. }
  unfold extractTableDetails at 1. intros H.
  destruct table as [s|t|t|d]; try discriminate H; injection H as <-.
  - apply (Hnormal {| tableName := s; schema := None; delimiter := None;
                      otherKeys := [] |}).
  - apply Hnormal.
  - apply Hnormal.
Qed.

(** X23.  Naming the default schema is the same as naming no schema: when
    [options.schema] is not set, a table declared in the default schema is
    quoted exactly like the table without a schema, with or without support
    for schemas and whatever the alias; a table given by its name alone is
    quoted like the object that has only that name. *)
Theorem quoteTable_default_schema (name : string) (delimiter_ : option string)
    (keys : list string) (alias : TableAlias) :
  options_schema settings = None ->
  quoteTable dialect settings
    (TableObject {| tableName := name; schema := Some (getDefaultSchema settings);
                    delimiter := delimiter_; otherKeys := keys |}) alias
  = quoteTable dialect settings
      (TableObject {| tableName := name; schema := None;
                      delimiter := delimiter_; otherKeys := keys |}) alias
  /\ quoteTable dialect settings (TableString name) alias
     = quoteTable dialect settings
         (TableObject {| tableName := name; schema := None; delimiter := None;
                         otherKeys := [] |}) alias.
Proof.
  intros Hnone. split; [|reflexivity].
  assert (E : extractTableDetails settings
                (TableObject {| tableName := name;
                                schema := Some (getDefaultSchema settings);
                                delimiter := delimiter_; otherKeys := keys |})
                None None
              = extractTableDetails settings
                  (TableObject {| tableName := name; schema := None;
                                  delimiter := delimiter_; otherKeys := keys |})
                  None None).
  { unfold extractTableDetails. cbn [tableName schema delimiter otherKeys].
    rewrite Hnone. do 3 f_equal. cbn [orElse].
    now destruct (truthy (getDefaultSchema settings)). }
  unfold quoteTable. cbv beta iota zeta. rewrite E. reflexivity.
Qed.

(** X24.  The alias of a quoted table: [true] stands for the name of the
    table, [false] and the empty string for no alias, and a non-empty alias
    appends [ AS ] and the quoted alias to what the table is quoted as
    without an alias.  An object with the key [as] or [name] is refused. *)
Theorem quoteTable_alias (table : TableNameWithSchema) (alias : string) :
  quoteTable dialect settings (TableObject table) (AliasBoolean true)
  = quoteTable dialect settings (TableObject table) (AliasString (tableName table))
  /\ quoteTable dialect settings (TableObject table) (AliasString "")
     = quoteTable dialect settings (TableObject table) (AliasBoolean false)
  /\ (alias <> "" ->
      quoteTable dialect settings (TableObject table) (AliasString alias)
      = match quoteTable dialect settings (TableObject table) (AliasBoolean false) with
        | inl e => inl e
        | inr sql => inr (sql ++ " AS " ++ quoteIdentifier dialect alias)
        end)
  /\ (In "as" (otherKeys table) \/ In "name" (otherKeys table) ->
      forall anyAlias,
        quoteTable dialect settings (TableObject table) anyAlias
        = inl AsAndNameNotAllowed).
Proof.
  split; [reflexivity|]. split; [reflexivity|]. split.
  - intros Hne. apply truthy_true_iff in Hne. unfold quoteTable.
    cbn [extractTableDetails]. cbn [truthy].
    destruct (existsb (String.eqb "as") (otherKeys table)
              || existsb (String.eqb "name") (otherKeys table));
      [reflexivity|]. now rewrite Hne.
  - intros Hin anyAlias. unfold quoteTable. cbn [extractTableDetails].
    assert (Hkeys : existsb (String.eqb "as") (otherKeys table)
                    || existsb (String.eqb "name") (otherKeys table) = true).
    { apply orb_true_iff.
      destruct Hin as [H|H]; [left|right]; apply existsb_exists; eexists;
        (split; [exact H | apply String.eqb_refl]). }
    now rewrite Hkeys.
Qed.

(** X25.  On tables that are valid inputs, being the same table is an
    equivalence: every table is the same table as itself even when the two
    arguments are not the same reference, the answer does not depend on the
    order of the arguments, and it is transitive.  The answer is [true]
    exactly when the names and the resolved schemas agree. *)
Theorem isSameTable_equivalence (tableA tableB tableC : TableNameOrModel)
    (a b c : TableNameWithSchema) :
  extractTableDetails settings tableA None None = inr a ->
  extractTableDetails settings tableB None None = inr b ->
  extractTableDetails settings tableC None None = inr c ->
  isSameTable settings false tableA tableA = inr true
  /\ isSameTable settings false tableA tableB = isSameTable settings false tableB tableA
  /\ (isSameTable settings false tableA tableB = inr true ->
      isSameTable settings false tableB tableC = inr true ->
      isSameTable settings false tableA tableC = inr true)
  /\ (isSameTable settings false tableA tableB = inr true
      <-> tableName a = tableName b /\ schema a = schema b).
Proof.
  intros Ha Hb Hc. unfold isSameTable. rewrite Ha, Hb, Hc.
  assert (Hschema : forall t d,
             extractTableDetails settings t None None = inr d ->
             schema d = Some (orElse (schema d) "")).
  { intros t d H. unfold extractTableDetails in H.
    destruct t; try discriminate H; injection H as <-;
      cbn [schema]; f_equal; symmetry; apply orElse_Some_self;
      apply truthy_false_iff. }
  split; [now rewrite !String.eqb_refl|].
  split; [f_equal; f_equal; apply String.eqb_sym|].
  split.
  - intros H1 H2. injection H1 as H1. injection H2 as H2.
    apply andb_true_iff in H1, H2. destruct H1 as [N1 S1], H2 as [N2 S2].
    apply String.eqb_eq in N1, S1, N2, S2.
    rewrite N1, N2, S1, S2, !String.eqb_refl. reflexivity.
  - split.
    + intros H. injection H as H'. apply andb_true_iff in H'.
      destruct H' as [Hn Hs]. apply String.eqb_eq in Hn, Hs.
      split; [exact Hn|].
      rewrite (Hschema _ _ Ha), (Hschema _ _ Hb). now rewrite Hs.
    + intros [Hn Hs]. rewrite Hn, Hs, !String.eqb_refl. reflexivity.
Qed.

End TableNameProperties.

Lemma extractTableDetails_idempotent_witness :
  extractTableDetails
    {| supports_schemas := true; getDefaultSchema := "public";
       options_schema := None |}
    (TableObject {| tableName := "users"; schema := Some "public";
                    delimiter := Some "."; otherKeys := [] |}) None None
  = inr {| tableName := "users"; schema := Some "public"; delimiter := Some ".";
           otherKeys := [] |}.
Proof.
  apply (@extractTableDetails_idempotent
           {| supports_schemas := true; getDefaultSchema := "public";
              options_schema := None |}
           (TableString "users") None None).
  reflexivity.
Defined.

Lemma quoteTable_default_schema_witness :
  quoteTable sampleDialect
    {| supports_schemas := true; getDefaultSchema := "public";
       options_schema := None |}
    (TableObject {| tableName := "users"; schema := Some "public";
                    delimiter := None; otherKeys := [] |}) (AliasBoolean true)
  = quoteTable sampleDialect
      {| supports_schemas := true; getDefaultSchema := "public";
         options_schema := None |}
      (TableObject {| tableName := "users"; schema := None;
                      delimiter := None; otherKeys := [] |}) (AliasBoolean true).
Proof.
  apply (proj1 (@quoteTable_default_schema sampleDialect
                  {| supports_schemas := true; getDefaultSchema := "public";
                     options_schema := None |}
                  "users" None [] (AliasBoolean true) eq_refl)).
Defined.

Lemma quoteTable_alias_witness :
  quoteTable sampleDialect
    {| supports_schemas := true; getDefaultSchema := "public";
       options_schema := None |}
    (TableObject {| tableName := "users"; schema := Some "app"; delimiter := None;
                    otherKeys := [] |}) (AliasString "u")
  = inr "[app].[users] AS [u]"
  /\ quoteTable sampleDialect
       {| supports_schemas := true; getDefaultSchema := "public";
          options_schema := None |}
       (TableObject {| tableName := "users"; schema := None; delimiter := None;
                       otherKeys := ["as"] |}) (AliasBoolean false)
     = inl AsAndNameNotAllowed.
Proof.
  split.
  - apply (proj1 (proj2 (proj2
             (@quoteTable_alias sampleDialect
                {| supports_schemas := true; getDefaultSchema := "public";
                   options_schema := None |}
                {| tableName := "users"; schema := Some "app"; delimiter := None;
                   otherKeys := [] |} "u")))).
    discriminate.
  - apply (proj2 (proj2 (proj2
             (@quoteTable_alias sampleDialect
                {| supports_schemas := true; getDefaultSchema := "public";
                   options_schema := None |}
                {| tableName := "users"; schema := None; delimiter := None;
                   otherKeys := ["as"] |} "u")))).
    left. now left.
Defined.

Lemma isSameTable_equivalence_witness :
  isSameTable
    {| supports_schemas := true; getDefaultSchema := "public";
       options_schema := None |} false
    (TableString "users")
    (TableObject {| tableName := "users"; schema := Some "public";
                    delimiter := None; otherKeys := [] |})
  = isSameTable
      {| supports_schemas := true; getDefaultSchema := "public";
         options_schema := None |} false
      (TableObject {| tableName := "users"; schema := Some "public";
                      delimiter := None; otherKeys := [] |})
      (TableString "users").
Proof.
  apply (proj1 (proj2
           (@isSameTable_equivalence
              {| supports_schemas := true; getDefaultSchema := "public";
                 options_schema := None |}
              (TableString "users")
              (TableObject {| tableName := "users"; schema := Some "public";
                              delimiter := None; otherKeys := [] |})
              (TableString "users") _ _ _ eq_refl eq_refl eq_refl))).
Defined.

(* ------------------------------------------------------------------ *)
(** ** Function calls, operand types and attribute-level groups *)

(** X26.  A function call renders as the name of the function followed by its
    arguments escaped as a list: every argument, SequelizeMethod or not, is
    formatted as [escape] formats it, in order and with the options of the
    call. *)
Theorem formatFn_as_list (dialect : Dialect)
    (this_formatSequelizeMethod : method -> Options -> result string)
    (fn : string) (args : list value) (options : Options) :
  formatFn dialect this_formatSequelizeMethod fn args options
  = (sql <- escapeList dialect this_formatSequelizeMethod args options ;;
     Ok (fn ++ sql)).
Proof.
  unfold formatFn, escapeList.
  assert (H : mapM (fun arg =>
                      match arg with
                      | VMethod m => this_formatSequelizeMethod m options
                      | _ => escape dialect this_formatSequelizeMethod arg options
                      end) args
              = mapM (fun v => escape dialect this_formatSequelizeMethod v options)
                  args).
  { induction args as [|a args IH]; [reflexivity|]. cbn [mapM]. rewrite IH.
    now destruct a. }
  rewrite H.
  destruct (mapM (fun v => escape dialect this_formatSequelizeMethod v options) args);
    reflexivity.
Qed.

(** X27.  Wrapping an operand in a JSON path keeps what is known of its type:
    with a model, the type of the wrapped operand is the type of the operand
    when it has one and JSON when it has none; without a model no operand has
    a type. *)
Theorem getOperandType_wrapJsonPath (dialect : Dialect) (operand : value)
    (segment : string) (path : list string) (m : ModelStatic) :
  getOperandType dialect (wrapJsonPath operand (segment :: path)) (Some m)
  = Some (match getOperandType dialect operand (Some m) with
          | Some t => t
          | None => JSON
          end)
  /\ forall anyOperand, getOperandType dialect anyOperand None = None.
Proof.
  split.
  - destruct operand as [| | | | | | | [] | |]; cbn [wrapJsonPath getOperandType];
      try reflexivity;
      repeat match goal with
             | |- context [match ?x with _ => _ end] => destruct x
             end; reflexivity.
  - intros anyOperand. now destruct anyOperand.
Qed.

(** X28.  Groups under an attribute: [{[Op.not]: v}] is the negation of what
    [v] compiles to under the same operand and path; an [Op.and] or [Op.or]
    group of one element compiles as that element, and an empty group as the
    empty string. *)
Theorem attribute_level_groups (leftOperand_ v : value) (allowJsonPath : bool)
    (handlePart : LeafHandler) (operator connective : Op)
    (parentJsonPath : list string) (leftDataType : option DataType) :
  connective = OpAnd \/ connective = OpOr ->
  handleRecursiveNotOrAndNestedPathRecursive leftOperand_ (oper OpNot v)
    allowJsonPath handlePart operator parentJsonPath leftDataType
  = (r <- handleRecursiveNotOrAndNestedPathRecursive leftOperand_ v allowJsonPath
            handlePart OpAnd parentJsonPath leftDataType ;;
     Ok (wrapWithNot (fst r), snd r))
  /\ handleRecursiveNotOrAndNestedPathRecursive leftOperand_
       (oper connective (VArr [v])) allowJsonPath handlePart operator
       parentJsonPath leftDataType
     = handleRecursiveNotOrAndNestedPathRecursive leftOperand_ v allowJsonPath
         handlePart OpAnd parentJsonPath leftDataType
  /\ handleRecursiveNotOrAndNestedPathRecursive leftOperand_
       (oper connective (VArr [])) allowJsonPath handlePart operator
       parentJsonPath leftDataType
     = Ok ("", leftDataType).
Proof.
  intros Hc.
  assert (Hguard : negb allowJsonPath && (0 <? 0)%nat = false)
    by now rewrite andb_false_r.
  split; [|split].
  - cbn [handleRecursiveNotOrAndNestedPathRecursive oper length mapMS].
    rewrite Hguard. cbn [bind snd fst app].
    destruct (handleRecursiveNotOrAndNestedPathRecursive leftOperand_ v
                allowJsonPath handlePart OpAnd parentJsonPath leftDataType)
      as [[sql st]| |]; cbn [bind fst snd]; try reflexivity.
    now rewrite joinWithLogicalOperator_single.
  - destruct Hc as [-> | ->];
      cbn [handleRecursiveNotOrAndNestedPathRecursive oper length mapMS];
      rewrite Hguard; cbn [bind snd fst app];
      (destruct (handleRecursiveNotOrAndNestedPathRecursive leftOperand_ v
                   allowJsonPath handlePart OpAnd parentJsonPath leftDataType)
         as [[sql st]| |]; cbn [bind fst snd]; try reflexivity;
       now rewrite !joinWithLogicalOperator_single).
  - destruct Hc as [-> | ->];
      cbn [handleRecursiveNotOrAndNestedPathRecursive oper length mapMS];
      rewrite Hguard; reflexivity.
Qed.

Lemma attribute_level_groups_witness :
  handleRecursiveNotOrAndNestedPathRecursive (VMethod (Attribute "a"))
    (oper OpOr (VArr [VNum 1])) false
    (fun _ _ _ st => Ok ("x", st)) OpAnd [] None
  = handleRecursiveNotOrAndNestedPathRecursive (VMethod (Attribute "a"))
      (VNum 1) false (fun _ _ _ st => Ok ("x", st)) OpAnd [] None.
Proof.
  apply (proj1 (proj2
           (@attribute_level_groups (VMethod (Attribute "a")) (VNum 1) false
              (fun _ _ _ st => Ok ("x", st)) OpAnd OpOr [] None
              (or_intror eq_refl)))).
Defined.

(** X29.  The type of the left operand that the leaf handler keeps between
    leaves changes in one way only: from unknown to JSON, when a leaf has a
    JSON path as left operand.  A known type is never replaced. *)
Theorem leaf_handler_type_state (dialect : Dialect)
    (this_formatSequelizeMethod : method -> Options -> result string)
    (options : Options) (left_ right_ : value) (operator : option Op)
    (leftDataType leftDataType' : option DataType) (sql : string) :
  formatPojoWhere_handlePart dialect this_formatSequelizeMethod options left_
    operator right_ leftDataType
  = Ok (sql, leftDataType') ->
  (forall t, leftDataType = Some t -> leftDataType' = Some t)
  /\ (leftDataType = None ->
      leftDataType' = match left_ with
                      | VMethod (JsonPath _ _) => Some JSON
                      | _ => None
                      end).
Proof.
  unfold formatPojoWhere_handlePart. intros H.
  match type of H with
  | bind ?parsed _ = _ => destruct parsed as [parsedRight| |]; try discriminate H
  end.
  cbn [bind] in H.
  match type of H with
  | bind ?formatted _ = _ => destruct formatted as [s| |]; try discriminate H
  end.
  cbn [bind] in H. injection H as _ <-.
  split.
  - intros t ->. reflexivity.
  - intros ->. destruct left_ as [| | | | | | | [] | |]; reflexivity.
Qed.

Lemma leaf_handler_type_state_witness :
  (forall t, @None DataType = Some t -> Some JSON = Some t)
  /\ (@None DataType = None ->
      Some JSON = match VMethod (JsonPath (VMethod (Attribute "a")) ["x"]) with
                  | VMethod (JsonPath _ _) => Some JSON
                  | _ => None
                  end).
Proof.
  apply (@leaf_handler_type_state sampleDialect
           (formatSequelizeMethod sampleDialect 2) EMPTY_OBJECT
           (VMethod (JsonPath (VMethod (Attribute "a")) ["x"])) (VNum 1) None
           None (Some JSON) "[a]->x = '1'").
  reflexivity.
Defined.
